(** * BiometryServer: the MLLP framing loop, the HL7 segment reader and the
    ACK builder of [src/test2.py] and [src/python-hl7main.py].

    Python [bytes] values are lists of [Byte.byte]; Python [str] values are
    [string]s, so a character is a code point below 256 (the analyzer speaks
    ASCII); the [patient_data] dictionary is a [gmap string string]; what a
    handler does to the outside world (the lines it logs, the results it
    saves, the bytes it sends, the socket it closes) is an explicit list of
    events; the wall clock a function may read is an explicit argument. *)

From Stdlib Require Import Strings.String Strings.Ascii Strings.Byte.
From Stdlib Require Import Lists.List Arith.PeanoNat Lia Bool.
From stdpp Require Import base option list strings gmap.
Import ListNotations.

Local Open Scope string_scope.
Local Open Scope list_scope.

(** ** Python [bytes] *)

Module Bytes.

Abbreviation bytes := (list byte).

(** [data.startswith(prefix)]. *)
Fixpoint startswith (prefix data : bytes) : bool :=
  match prefix, data with
  | [], _ => true
  | _ :: _, [] => false
  | p :: prefix', d :: data' => Byte.eqb p d && startswith prefix' data'
  end.

(** [sep in data]: some suffix of [data] starts with [sep]. *)
Fixpoint contains (sep data : bytes) : bool :=
  startswith sep data ||
  match data with
  | [] => false
  | _ :: data' => contains sep data'
  end.

(** [data.split(sep, 1)] when [sep] occurs in [data]: the bytes before the
    leftmost occurrence and the bytes after it.  Python returns the
    one-element list [[data]] when [sep] does not occur; the handlers unpack
    the result into two names only under the guard [sep in data], and [None]
    stands for the case the guard excludes. *)
Fixpoint split_once (sep data : bytes) : option (bytes * bytes) :=
  if startswith sep data then Some ([], drop (length sep) data)
  else match data with
       | [] => None
       | d :: data' =>
           match split_once sep data' with
           | Some (before, after) => Some (d :: before, after)
           | None => None
           end
       end.

End Bytes.
Import Bytes.

(** ** Python [str] *)

Module Str.

Definition CR : ascii := "013"%char.
Definition VT : ascii := "011"%char.
Definition FS : ascii := "028"%char.

(** [s.split(sep)] for a one-character separator: never the empty list. *)
Fixpoint split (sep : ascii) (s : string) : list string :=
  match s with
  | EmptyString => [EmptyString]
  | String c s' =>
      if Ascii.eqb c sep then EmptyString :: split sep s'
      else match split sep s' with
           | [] => [String c EmptyString]
           | w :: ws => String c w :: ws
           end
  end.

(** [c in s] for a one-character [c]. *)
Fixpoint occurs (c : ascii) (s : string) : bool :=
  match s with
  | EmptyString => false
  | String d s' => Ascii.eqb d c || occurs c s'
  end.

(** [c.isspace()] on the code points below 256: TAB, LF, VT, FF, CR, the
    four information separators 0x1C..0x1F, the space, NEL and NBSP. *)
Definition isspace (c : ascii) : bool :=
  let n := nat_of_ascii c in
  ((9 <=? n)%nat && (n <=? 13)%nat) || ((28 <=? n)%nat && (n <=? 32)%nat)
  || (n =? 133)%nat || (n =? 160)%nat.

Fixpoint lstrip (s : string) : string :=
  match s with
  | EmptyString => EmptyString
  | String c s' => if isspace c then lstrip s' else s
  end.

Fixpoint rstrip (s : string) : string :=
  match s with
  | EmptyString => EmptyString
  | String c s' =>
      match rstrip s' with
      | EmptyString => if isspace c then EmptyString else String c EmptyString
      | r => String c r
      end
  end.

(** [s.strip()]. *)
Definition strip (s : string) : string := rstrip (lstrip s).

(** The truth value of a string: [bool(s)]. *)
Definition truthy (s : string) : bool :=
  match s with EmptyString => false | String _ _ => true end.

(** [s[:n]]. *)
Definition prefix (n : nat) (s : string) : string := substring 0 n s.

(** [fields[i] if len(fields) > i else dflt]. *)
Definition item_or (fields : list string) (i : nat) (dflt : string) : string :=
  if bool_decide (i < length fields) then fields !!! i else dflt.

(** [s.encode('utf-8')] on the code points below 256. *)
Definition encode_char (c : ascii) : bytes :=
  let n := nat_of_ascii c in
  if (n <? 128)%nat then [byte_of_ascii c]
  else [default x00 (Byte.of_nat (192 + n / 64));
        default x00 (Byte.of_nat (128 + n mod 64))].

Fixpoint encode (s : string) : bytes :=
  match s with
  | EmptyString => []
  | String c s' => encode_char c ++ encode s'
  end.

(** A decoder that agrees with [bytes.decode('utf-8', errors='ignore')] on
    7-bit input: it keeps the bytes below 0x80 and leaves the others out.
    The handler takes its decoder as an argument; this one instantiates it
    where a concrete run is evaluated. *)
Definition decode_ascii (data : bytes) : string :=
  string_of_list_byte
    (filter (fun b => Byte.to_nat b < 128) data).

End Str.
Import Str.

(** ** The wall clock *)

(** A reading of [datetime.now()]. *)
Record datetime := {
  year : nat; month : nat; day : nat;
  hour : nat; minute : nat; second : nat;
  microsecond : nat
}.

Definition digit (n : nat) : ascii := ascii_of_nat (48 + n mod 10).

Definition pad2 (n : nat) : string :=
  String (digit (n / 10)) (String (digit n) EmptyString).

Definition pad4 (n : nat) : string := pad2 (n / 100) +:+ pad2 (n mod 100).

(** [now.strftime("%Y%m%d%H%M%S")], for the years of four digits. *)
Definition strftime (now : datetime) : string :=
  pad4 (year now) +:+ pad2 (month now) +:+ pad2 (day now)
  +:+ pad2 (hour now) +:+ pad2 (minute now) +:+ pad2 (second now).

(** The ranges of the fields of a [datetime] (the years of four digits). *)
Definition valid_datetime (t : datetime) : Prop :=
  1000 <= year t < 10 * 1000 /\ 1 <= month t <= 12 /\ 1 <= day t <= 31 /\
  hour t < 24 /\ minute t < 60 /\ second t < 60.

(** Two readings fall into the same calendar second. *)
Definition same_second (t1 t2 : datetime) : Prop :=
  year t1 = year t2 /\ month t1 = month t2 /\ day t1 = day t2 /\
  hour t1 = hour t2 /\ minute t1 = minute t2 /\ second t1 = second t2.

(** ** The MLLP envelope and the framing loop of both handlers *)

Definition START_BLOCK : bytes := [x0b].
Definition END_BLOCK : bytes := [x1c; x0d].

(** The head of the inner loop, as both handlers have it:
<<
    message, buffer = buffer.split(b'\x1c\x0d', 1)
    if message.startswith(b'\x0b'):
        message = message[1:]
>> *)
Definition strip_start (message : bytes) : bytes :=
  if startswith START_BLOCK message then drop 1 message else message.

(** The inner loop [while b'\x1c\x0d' in buffer] reduced to what it does to
    the buffer: the payloads it takes off, oldest first, and the buffer it
    leaves.  [fuel] bounds the number of rounds. *)
Fixpoint extract_loop (fuel : nat) (buffer : bytes) : list bytes * bytes :=
  match fuel with
  | O => ([], buffer)
  | S fuel' =>
      if contains END_BLOCK buffer then
        match split_once END_BLOCK buffer with
        | Some (message, buffer') =>
            let '(frames, rest) := extract_loop fuel' buffer' in
            (strip_start message :: frames, rest)
        | None => ([], buffer)
        end
      else ([], buffer)
  end.

(** Every round takes at least the two terminator bytes off the buffer, so
    one more round than the buffer has bytes is enough. *)
Definition extract_ready_frames (buffer : bytes) : list bytes * bytes :=
  extract_loop (S (length buffer)) buffer.

(** One pass of the outer loop on the buffer: [buffer += data], then the
    inner loop. *)
Definition feed (buffer data : bytes) : list bytes * bytes :=
  extract_ready_frames (buffer ++ data).

(** The bytes of one frame on the wire. *)
Definition mllp_frame (payload : bytes) : bytes :=
  START_BLOCK ++ payload ++ END_BLOCK.

(** ** [src/test2.py] *)

Module Test2.

(** One entry of [lab_results]: the dictionary built for an [OBX] segment,
    whose five keys are fixed. *)
Record test_result := {
  test_code : string;
  test_value : string;
  units : string;
  reference_range : string;
  status : string
}.

(** What the handler does to the outside world, in the order it does it. *)
Inductive event :=
| LogReceived (n : nat)
    (** [logging.info(f"Received {len(data)} bytes from {address}")] *)
| LogCompleteMessage (message : bytes)
    (** the banner RECEIVED COMPLETE HL7 MESSAGE, tagged with the payload
        the handler holds in [message] at that point *)
| LogRawMessage (message_text : string)
    (** [logging.info(f"Raw message: {repr(message_text)}")] *)
| SaveLabResults (patient_data : gmap string string)
                 (lab_results : list test_result)
    (** the call [self.save_lab_results_to_file(patient_data, lab_results)] *)
| Send (data : bytes)
    (** [client_socket.send(data)], with the two lines logged after it *)
| LogError
    (** [logging.error(f"Error handling client {address}: {e}")] with its
        traceback *)
| CloseSocket
| LogConnectionClosed.

(** [create_ack_response(self, original_message=None)]. *)
Definition create_ack_response (now : datetime)
    (original_message : option string) : string :=
  let control_id := "BM_3" in
  let timestamp := "20250906121328" in
  let ack := "MSH|^~\&|103868||BM850HL7MW||" +:+ timestamp +:+ "||ACK|"
             +:+ control_id +:+ "|P|2.7" +:+ String CR EmptyString in
  let ack := ack +:+ "MSA|AA|" +:+ control_id +:+ String CR EmptyString in
  String VT EmptyString +:+ ack +:+ String FS (String CR EmptyString).

(** The segments of a message text:
<<
    segments = complete_message.split('\r')
    segments = [seg.strip() for seg in segments if seg.strip()]
>> *)
Definition segments_of (complete_message : string) : list string :=
  let segments := split CR complete_message in
  omap (fun seg => if truthy (strip seg) then Some (strip seg) else None)
       segments.

(** The body of the loop over the segments, on the two accumulators. *)
Definition process_segment
    (acc : gmap string string * list test_result) (segment : string)
    : gmap string string * list test_result :=
  let '(patient_data, lab_results) := acc in
  if negb (truthy segment) then acc
  else
    let segment_type := prefix 3 segment in
    if String.eqb segment_type "MSH" then
      let fields := split "|" segment in
      if bool_decide (10 < length fields) then
        let patient_data :=
          <["message_control_id" := fields !!! 10]> patient_data in
        let patient_data :=
          <["timestamp" := item_or fields 7 ""]> patient_data in
        (patient_data, lab_results)
      else acc
    else if String.eqb segment_type "OBR" then
      let fields := split "|" segment in
      if bool_decide (4 < length fields) then
        let patient_data := <["patient_info" := fields !!! 4]> patient_data in
        let patient_data :=
          <["specimen_id" := item_or fields 3 ""]> patient_data in
        (patient_data, lab_results)
      else acc
    else if String.eqb segment_type "OBX" then
      let fields := split "|" segment in
      if bool_decide (5 < length fields) then
        let test_result :=
          {| test_code := item_or fields 3 "";
             test_value := item_or fields 5 "";
             units := item_or fields 6 "";
             reference_range := item_or fields 7 "";
             status := item_or fields 11 "" |} in
        (patient_data, lab_results ++ [test_result])
      else acc
    else acc.

(** [process_complete_hl7_message(self, complete_message, address)]: no
    statement of its [try] block raises, so it always reaches the call of
    [save_lab_results_to_file]; the result is the pair of arguments of that
    call. *)
Definition process_complete_hl7_message (complete_message : string)
    : gmap string string * list test_result :=
  let segments := segments_of complete_message in
  fold_left process_segment segments (∅, []).

(** What [client_socket.recv(1024)] gives: bytes (none when the peer has
    closed), or an exception. *)
Inductive recv_result :=
| Data (data : bytes)
| Raise.

Section Handler.

(** [bytes.decode('utf-8', errors='ignore')], which never raises. *)
Variable decode : bytes -> string.

(** The clock the connection runs under. *)
Variable now : datetime.

(** The rounds of the inner loop for one frame, after the split: decode,
    process, acknowledge. *)
Definition on_frame (message : bytes) : list event :=
  let message_text := decode message in
  let '(patient_data, lab_results) :=
    process_complete_hl7_message message_text in
  let ack_response := create_ack_response now (Some message_text) in
  [LogCompleteMessage message; LogRawMessage message_text;
   SaveLabResults patient_data lab_results; Send (encode ack_response)].

(** The inner loop [while b'\x1c\x0d' in buffer] of [handle_client]. *)
Fixpoint frame_loop (fuel : nat) (buffer : bytes) : list event * bytes :=
  match fuel with
  | O => ([], buffer)
  | S fuel' =>
      if contains END_BLOCK buffer then
        match split_once END_BLOCK buffer with
        | Some (message, buffer') =>
            let message := strip_start message in
            let '(events, rest) := frame_loop fuel' buffer' in
            (on_frame message ++ events, rest)
        | None => ([], buffer)
        end
      else ([], buffer)
  end.

(** The outer loop [while True] of [handle_client], one [recv] per round;
    the peer closes after the last scripted read.  The second component is
    the value of [buffer] when the loop is left. *)
Fixpoint recv_loop (script : list recv_result) (buffer : bytes)
    : list event * bytes :=
  match script with
  | [] => ([], buffer)
  | Raise :: _ => ([LogError], buffer)
  | Data data :: script' =>
      match data with
      | [] => ([], buffer)
      | _ :: _ =>
          let buffer := buffer ++ data in
          let '(events, buffer) := frame_loop (S (length buffer)) buffer in
          let '(events', final) := recv_loop script' buffer in
          (LogReceived (length data) :: events ++ events', final)
      end
  end.

(** [handle_client(self, client_socket, address)], the definition that is
    in force (the second one of the class): the events of the connection
    and the buffer it still held when it returned.  Sending succeeds. *)
Definition handle_client (script : list recv_result) : list event * bytes :=
  let '(events, leftover) := recv_loop script [] in
  (events ++ [CloseSocket; LogConnectionClosed], leftover).

End Handler.

(** The payloads of the frames a run has taken off its buffer. *)
Definition frames_of (events : list event) : list bytes :=
  omap (fun e => match e with LogCompleteMessage m => Some m | _ => None end)
       events.

(** The byte strings a run has sent. *)
Definition sent_of (events : list event) : list bytes :=
  omap (fun e => match e with Send d => Some d | _ => None end) events.

(** The results a run has saved. *)
Definition saved_of (events : list event)
    : list (gmap string string * list test_result) :=
  omap (fun e => match e with
                 | SaveLabResults pd lr => Some (pd, lr)
                 | _ => None
                 end) events.

End Test2.

(** ** [src/python-hl7main.py] *)

Module Hl7Main.

(** [create_ack_response(self)]: the timestamp is read off the clock. *)
Definition create_ack_response (now : datetime) : string :=
  let timestamp := strftime now in
  let ack := "MSH|^~\&|RECEIVER|HOSPITAL|SWELAB|LAB|" +:+ timestamp
             +:+ "||ACK|" +:+ timestamp +:+ "|P|2.4"
             +:+ String CR EmptyString in
  let ack := ack +:+ "MSA|AA|" +:+ timestamp +:+ "|Message accepted"
             +:+ String CR EmptyString in
  String VT EmptyString +:+ ack +:+ String FS (String CR EmptyString).

End Hl7Main.

(** ** Reading the fields of a message *)

(** The [|]-separated fields of the first segment of [text] whose type is
    [segment_type]; the segments are cut as the server cuts them. *)
Definition segment_fields (segment_type text : string) : option (list string) :=
  match filter (fun seg => prefix 3 seg = segment_type)
               (Test2.segments_of text) with
  | [] => None
  | seg :: _ => Some (split "|" seg)
  end.

(** Field [n] of the [MSH] segment in the numbering of HL7, where field 1
    is the field separator itself: field 2, the encoding characters, is the
    first piece after [MSH|], field 9 the message type, field 10 the
    control ID. *)
Definition msh_field (n : nat) (text : string) : option string :=
  fields ← segment_fields "MSH" text; fields !! (n - 1).

(** Field [n] of the [MSA] segment, counted after the segment type: field 1
    is the acknowledgment code, field 2 the control ID that is echoed. *)
Definition msa_field (n : nat) (text : string) : option string :=
  fields ← segment_fields "MSA" text; fields !! n.

(** The spec's [MalformedMessage] condition on a message text: no segment,
    or a first segment whose type is not [MSH]. *)
Definition malformed (text : string) : bool :=
  match Test2.segments_of text with
  | [] => true
  | seg :: _ => negb (String.eqb (prefix 3 seg) "MSH")
  end.

(** The passes of the outer loop body over a sequence of chunks, one [feed]
    per chunk: the payloads taken off, oldest first, and the buffer left. *)
Fixpoint feed_all (buffer : bytes) (chunks : list bytes) : list bytes * bytes :=
  match chunks with
  | [] => ([], buffer)
  | data :: chunks' =>
      let '(frames, buffer') := feed buffer data in
      let '(frames', final) := feed_all buffer' chunks' in
      (frames ++ frames', final)
  end.

(** The result of an [OBX] segment, when the segment has more than five
    fields. *)
Definition obx_result (segment : string) : option Test2.test_result :=
  if String.eqb (prefix 3 segment) "OBX" then
    let fields := split "|" segment in
    if bool_decide (5 < length fields) then
      Some {| Test2.test_code := item_or fields 3 "";
              Test2.test_value := item_or fields 5 "";
              Test2.units := item_or fields 6 "";
              Test2.reference_range := item_or fields 7 "";
              Test2.status := item_or fields 11 "" |}
    else None
  else None.

(** Sample inputs. *)

Definition oru_text : string :=
  "MSH|^~\&|A|B|C|D|20240101000000||ORU^R01|CTRL1|P|2.4".

Definition query_text : string :=
  "MSH|^~\&|A|B|C|D|20240101000000||QRY^A19|Q123|P|2.4".

Definition obx_text : string :=
  "OBX|1|ST|HGB||13.5|g/dL|12-16|||F".

(** The message of the end-to-end scenario: the [MSH] line above, a [PID]
    line and an [OBX] line. *)
Definition oru_message : string :=
  oru_text +:+ String CR "PID|1||PATIENT1" +:+ String CR obx_text.

(** The only entry of [lab_results] that [obx_text] gives. *)
Definition hgb_result : Test2.test_result :=
  {| Test2.test_code := "HGB"; Test2.test_value := "13.5";
     Test2.units := "g/dL"; Test2.reference_range := "12-16";
     Test2.status := "" |}.

(** The frame every call of [Test2.create_ack_response] returns. *)
Definition fixed_ack : string :=
  String VT ("MSH|^~\&|103868||BM850HL7MW||20250906121328||ACK|BM_3|P|2.7"
  +:+ String CR ("MSA|AA|BM_3" +:+ String CR (String FS (String CR "")))).

Definition noon : datetime :=
  {| year := 2024; month := 1; day := 1; hour := 12; minute := 0;
     second := 0; microsecond := 1 |}.

Definition noon_later : datetime :=
  {| year := 2024; month := 1; day := 1; hour := 12; minute := 0;
     second := 0; microsecond := 2 |}.

(** ** [src/test2.py]: the file of results *)

(** [s.replace(old, new)] for one-character [old] and [new]. *)
Fixpoint replace_char (old new : ascii) (s : string) : string :=
  match s with
  | EmptyString => EmptyString
  | String c s' =>
      String (if Ascii.eqb c old then new else c) (replace_char old new s')
  end.

(** [now.strftime("%Y%m%d_%H%M%S")], for the years of four digits. *)
Definition strftime_file (now : datetime) : string :=
  pad4 (year now) +:+ pad2 (month now) +:+ pad2 (day now) +:+ "_"
  +:+ pad2 (hour now) +:+ pad2 (minute now) +:+ pad2 (second now).

(** [now.strftime("%Y-%m-%d %H:%M:%S")], for the years of four digits. *)
Definition strftime_row (now : datetime) : string :=
  pad4 (year now) +:+ "-" +:+ pad2 (month now) +:+ "-" +:+ pad2 (day now)
  +:+ " " +:+ pad2 (hour now) +:+ ":" +:+ pad2 (minute now) +:+ ":"
  +:+ pad2 (second now).

Module Test2Save.

(** The table of [get_test_name]. *)
Definition test_names_table : list (string * string) :=
  [("RBC", "Red Blood Cells");
   ("WBC", "White Blood Cells");
   ("HGB", "Hemoglobin");
   ("HCT", "Hematocrit");
   ("MCV", "Mean Corpuscular Volume");
   ("MCH", "Mean Corpuscular Hemoglobin");
   ("MCHC", "Mean Corpuscular Hemoglobin Concentration");
   ("PLT", "Platelets");
   ("MPV", "Mean Platelet Volume");
   ("RDWR", "Red Cell Distribution Width");
   ("RDWA", "Red Cell Distribution Width Absolute");
   ("PCT", "Plateletcrit");
   ("PDW", "Platelet Distribution Width");
   ("LPCR", "Large Platelet Cell Ratio");
   ("LYMA", "Lymphocytes Absolute");
   ("MIDA", "Monocytes Absolute");
   ("GRNA", "Granulocytes Absolute");
   ("LYMR", "Lymphocytes Relative");
   ("MIDR", "Monocytes Relative");
   ("GRNR", "Granulocytes Relative")].

Definition test_names : gmap string string := list_to_map test_names_table.

(** [get_test_name(self, test_code)]: [test_names.get(test_code, test_code)]. *)
Definition get_test_name (test_code : string) : string :=
  default test_code (test_names !! test_code).

(** [name.replace(' ', '_').replace('/', '_').replace('\\', '_')
    .replace(':', '_')]. *)
Definition clean (name : string) : string :=
  replace_char ":" "_"
    (replace_char "\" "_" (replace_char "/" "_" (replace_char " " "_" name))).

(** The name of the file:
    [f"{clean_patient_name}_{clean_specimen_id}_{timestamp}.csv"]. *)
Definition filename (now : datetime) (patient_data : gmap string string) : string :=
  let timestamp := strftime_file now in
  let patient_name := default "Unknown_Patient" (patient_data !! "patient_info") in
  let specimen_id := default "Unknown_Specimen" (patient_data !! "specimen_id") in
  clean patient_name +:+ "_" +:+ clean specimen_id +:+ "_" +:+ timestamp
  +:+ ".csv".

(** The test of both loops over [lab_results]:
    [result['test_code'] and result['test_value']]. *)
Definition written (result : Test2.test_result) : bool :=
  truthy (Test2.test_code result) && truthy (Test2.test_value result).

(** The row written for a result. *)
Definition result_row (result : Test2.test_result) : list string :=
  [Test2.test_code result;
   get_test_name (Test2.test_code result);
   Test2.test_value result;
   Test2.units result;
   Test2.reference_range result;
   Test2.status result].

(** The rows handed to [writer.writerow], in order; [now_row] is the
    second reading of the clock, taken for the [Timestamp:] row. *)
Definition csv_rows (now_row : datetime) (patient_data : gmap string string)
    (lab_results : list Test2.test_result) : list (list string) :=
  let patient_name := default "Unknown_Patient" (patient_data !! "patient_info") in
  let specimen_id := default "Unknown_Specimen" (patient_data !! "specimen_id") in
  [["Patient Information"];
   ["Patient Name:"; patient_name];
   ["Specimen ID:"; specimen_id];
   ["Timestamp:"; strftime_row now_row];
   [];
   ["Test_Code"; "Test_Name"; "Result_Value"; "Units"; "Reference_Range";
    "Status"]]
  ++ map result_row (filter (fun r => written r = true) lab_results).

(** What the function logs at its end. *)
Inductive save_log :=
| LogSaved (name : string) (total : nat)
    (** [Lab results saved to CSV: ...] and [Total tests saved: ...] *)
| LogSaveError.
    (** [Error saving lab results to CSV: ...] *)

(** [save_lab_results_to_file(self, patient_data, lab_results)] on a
    directory that maps the name of a file to the rows written to it.
    [can_open] tells whether [open(filename, 'w')] succeeds; opening for
    writing empties the file. *)
Definition save_lab_results_to_file (can_open : string -> bool)
    (now now_row : datetime) (patient_data : gmap string string)
    (lab_results : list Test2.test_result)
    (directory : gmap string (list (list string)))
    : gmap string (list (list string)) * save_log :=
  let name := filename now patient_data in
  if can_open name then
    (<[name := csv_rows now_row patient_data lab_results]> directory,
     LogSaved name
       (length (filter (fun r => written r = true) lab_results)))
  else (directory, LogSaveError).

End Test2Save.

(** A text with a line feed put behind every carriage return:
    [text.replace('\r', '\r\n')]. *)
Fixpoint with_crlf (text : string) : string :=
  match text with
  | EmptyString => EmptyString
  | String c text' =>
      if Ascii.eqb c CR then String CR (String "010"%char (with_crlf text'))
      else String c (with_crlf text')
  end.

(** What an [MSH] segment of more than ten pieces stores: the pieces 10
    and 7 of the split, under [message_control_id] and [timestamp]. *)
Definition msh_entry (segment : string) : option (string * string) :=
  if String.eqb (prefix 3 segment) "MSH" then
    let fields := split "|" segment in
    if bool_decide (10 < length fields)
    then Some (fields !!! 10, item_or fields 7 "") else None
  else None.

(** What an [OBR] segment of more than four pieces stores: the pieces 4
    and 3 of the split, under [patient_info] and [specimen_id]. *)
Definition obr_entry (segment : string) : option (string * string) :=
  if String.eqb (prefix 3 segment) "OBR" then
    let fields := split "|" segment in
    if bool_decide (4 < length fields)
    then Some (fields !!! 4, item_or fields 3 "") else None
  else None.

(** ** [src/python-hl7main.py]: the connection and the file of a message *)

Module Hl7MainConn.

(** What the handler does to the outside world. *)
Inductive event :=
| Process (message_text : string)
    (** the call [self.process_hl7_message(message_text, address)], which
        catches every exception it meets *)
| Send (data : bytes)
| LogError
    (** [logging.error(f"Error handling client {address}: {e}")] *)
| CloseSocket
| LogConnectionClosed.

(** How a loop is left: by its test, with the buffer and the number of
    ACKs built so far, or by an exception. *)
Inductive outcome :=
| Left (buffer : bytes) (acks : nat)
| Raised.

Section Handler.

(** [bytes.decode('utf-8')]: [None] when it raises [UnicodeDecodeError]. *)
Variable decode : bytes -> option string.

(** The reading of the clock when the ACK number [k] of the connection is
    built. *)
Variable clock : nat -> datetime.

(** The inner loop [while b'\x1c\x0d' in buffer] of [handle_client]. *)
Fixpoint frame_loop (fuel : nat) (buffer : bytes) (acks : nat)
    : list event * outcome :=
  match fuel with
  | O => ([], Left buffer acks)
  | S fuel' =>
      if contains END_BLOCK buffer then
        match split_once END_BLOCK buffer with
        | Some (message, buffer') =>
            let message := strip_start message in
            match decode message with
            | None => ([], Raised)
            | Some message_text =>
                let ack_response := Hl7Main.create_ack_response (clock acks) in
                let '(events, out) := frame_loop fuel' buffer' (S acks) in
                (Process message_text :: Send (encode ack_response) :: events,
                 out)
            end
        | None => ([], Left buffer acks)
        end
      else ([], Left buffer acks)
  end.

(** The outer loop [while True], one [recv] per round; the peer closes
    after the last scripted read. *)
Fixpoint recv_loop (script : list Test2.recv_result) (buffer : bytes)
    (acks : nat) : list event * outcome :=
  match script with
  | [] => ([], Left buffer acks)
  | Test2.Raise :: _ => ([], Raised)
  | Test2.Data data :: script' =>
      match data with
      | [] => ([], Left buffer acks)
      | _ :: _ =>
          let buffer := buffer ++ data in
          match frame_loop (S (length buffer)) buffer acks with
          | (events, Left buffer acks) =>
              let '(events', out) := recv_loop script' buffer acks in
              (events ++ events', out)
          | (events, Raised) => (events, Raised)
          end
      end
  end.

(** The events of frames that decode to [texts], when [acks] ACKs have
    been built before: each text is processed and answered with the ACK
    built at the next reading of the clock. *)
Fixpoint answer (acks : nat) (texts : list string) : list event :=
  match texts with
  | [] => []
  | message_text :: texts' =>
      Process message_text
        :: Send (encode (Hl7Main.create_ack_response (clock acks)))
        :: answer (S acks) texts'
  end.

(** [handle_client(self, client_socket, address)].  Sending succeeds. *)
Definition handle_client (script : list Test2.recv_result) : list event :=
  match recv_loop script [] 0 with
  | (events, Left _ _) => events ++ [CloseSocket; LogConnectionClosed]
  | (events, Raised) => events ++ [LogError; CloseSocket; LogConnectionClosed]
  end.

End Handler.


(** The byte strings a run has sent. *)
Definition sent_of (events : list event) : list bytes :=
  omap (fun e => match e with Send d => Some d | _ => None end) events.

(** [save_message_to_file(self, message_text)] on a directory that maps the
    name of a file to its text; [can_open] tells whether
    [open(filename, 'w')] succeeds. *)
Definition save_message_to_file (can_open : string -> bool) (now : datetime)
    (message_text : string) (directory : gmap string string)
    : gmap string string :=
  let timestamp := strftime_file now in
  let filename := "hl7_message_" +:+ timestamp +:+ ".txt" in
  if can_open filename then <[filename := message_text]> directory
  else directory.

(** The name [save_message_to_file] gives to the file of a message saved
    at [now]. *)
Definition message_filename (now : datetime) : string :=
  "hl7_message_" +:+ strftime_file now +:+ ".txt".

End Hl7MainConn.

Module Hl7MainProcess.

(** What [process_hl7_message] does to the outside world. *)
Inductive event :=
| LogReceived
    (** [logging.info(f"Received HL7 message from {address}")] *)
| LogMessageType (message_type : string)
    (** [logging.info(f"Message Type: {message['MSH'][9][0]}")] *)
| HandleORU
    (** the call [self.handle_oru_message(message)], which catches every
        exception it meets *)
| HandleQRY
    (** the call [self.handle_qry_message(message)] *)
| LogUnhandled (message_type : string)
    (** [logging.info(f"Unhandled message type: {message_type}")] *)
| SaveMessage (message_text : string)
    (** the call [self.save_message_to_file(message_text)] *)
| LogProcessError (message_text : string).
    (** [logging.error(f"Error processing HL7 message: {e}")] and
        [logging.info(f"Raw message: {message_text}")] *)

Section Process.

(** The messages of the [hl7] library, which is not part of the
    repository. *)
Variable hl7_message : Type.

(** [hl7.parse(message_text)]: [None] when it raises. *)
Variable parse : string -> option hl7_message.

(** [str(message['MSH'][9][0])]: [None] when the lookup raises. *)
Variable message_type_of : hl7_message -> option string.

(** [process_hl7_message(self, message_text, address)]. *)
Definition process_hl7_message (message_text : string) : list event :=
  match parse message_text with
  | None => [LogProcessError message_text]
  | Some message =>
      LogReceived ::
      match message_type_of message with
      | None => [LogProcessError message_text]
      | Some message_type =>
          [LogMessageType message_type;
           if String.eqb message_type "ORU" then HandleORU
           else if String.eqb message_type "QRY" then HandleQRY
           else LogUnhandled message_type;
           SaveMessage message_text]
      end
  end.

End Process.

End Hl7MainProcess.

(** A stand-in for [hl7.parse] where a concrete run is evaluated: it
    raises on the texts that are [malformed] and gives the segments of the
    others. *)
Definition parse_segments (text : string) : option (list string) :=
  if malformed text then None else Some (Test2.segments_of text).

(** A decoder that agrees with [bytes.decode('utf-8')] on 7-bit input and
    on input that holds the byte 0xFF, which no UTF-8 text holds: it raises
    when a byte is not below 0x80. *)
Definition decode_ascii_strict (data : bytes) : option string :=
  if forallb (fun b => Nat.ltb (Byte.to_nat b) 128) data
  then Some (string_of_list_byte data) else None.

(** * Properties *)

(** ** Membership and split on [bytes] *)

Section BytesFacts.

Implicit Types sep data before after : bytes.

Lemma startswith_app sep data :
  startswith sep data = true -> data = sep ++ drop (length sep) data.
Proof.
  revert data; induction sep as [|p sep IH]; intros [|d data]; simpl; try done.
  intros [Hp Hs]%andb_true_iff. apply byte_dec_bl in Hp as ->.
  f_equal. by apply IH.
Qed.

Lemma contains_split_once sep data :
  contains sep data = true <-> is_Some (split_once sep data).
Proof.
  induction data as [|d data IH]; simpl.
  - destruct (startswith sep []); simpl;
      split; first [solve [eauto] | done | by intros [? ?]].
  - destruct (startswith sep (d :: data)); simpl; [split; eauto|].
    rewrite IH. destruct (split_once sep data) as [[b a]|];
      split; first [solve [eauto] | done | by intros [? ?]].
Qed.

Lemma contains_false_split_once sep data :
  contains sep data = false -> split_once sep data = None.
Proof.
  intros Hc. destruct (split_once sep data) eqn:Hs; [|done].
  assert (contains sep data = true) by (apply contains_split_once; eauto).
  congruence.
Qed.

Lemma split_once_app sep data before after :
  split_once sep data = Some (before, after) ->
  data = before ++ sep ++ after.
Proof.
  revert before; induction data as [|d data IH]; intros before; simpl.
  - destruct (startswith sep []) eqn:Hs; [|done].
    intros [= <- <-]. by apply startswith_app in Hs.
  - destruct (startswith sep (d :: data)) eqn:Hs.
    + intros [= <- <-]. by apply startswith_app in Hs.
    + destruct (split_once sep data) as [[b a]|]; [|done].
      intros [= <- <-]. simpl. f_equal. by apply IH.
Qed.

Lemma split_once_shorter sep data before after :
  sep <> [] ->
  split_once sep data = Some (before, after) -> length after < length data.
Proof.
  intros Hsep ->%split_once_app. rewrite !length_app.
  destruct sep; [done|simpl; lia].
Qed.

End BytesFacts.

(** ** The terminator *)

Lemma starts_END_inv data :
  startswith END_BLOCK data = true <-> exists rest, data = x1c :: x0d :: rest.
Proof.
  split.
  - intros H%startswith_app. simpl in H. eauto.
  - intros [rest ->]. reflexivity.
Qed.

Lemma contains_END_cons b data :
  contains END_BLOCK (b :: data) = false <->
  startswith END_BLOCK (b :: data) = false /\ contains END_BLOCK data = false.
Proof. change (contains END_BLOCK (b :: data)) with
    (startswith END_BLOCK (b :: data) || contains END_BLOCK data).
  apply orb_false_iff.
Qed.

(** A payload without terminator cannot make one together with the first
    byte of the terminator that follows it. *)
Lemma starts_END_before_END b m rest :
  startswith END_BLOCK (b :: m) = false ->
  startswith END_BLOCK (b :: m ++ END_BLOCK ++ rest) = false.
Proof.
  destruct m as [|c m]; simpl.
  - intros _. by rewrite andb_false_r.
  - done.
Qed.

(** The leftmost terminator of [m ++ END_BLOCK ++ rest] is the one written
    out, when [m] holds none. *)
Lemma split_once_terminated m rest :
  contains END_BLOCK m = false ->
  split_once END_BLOCK (m ++ END_BLOCK ++ rest) = Some (m, rest).
Proof.
  induction m as [|b m IH]; [done|].
  intros [Hs Hc]%contains_END_cons.
  change (split_once END_BLOCK ((b :: m) ++ END_BLOCK ++ rest)) with
    (if startswith END_BLOCK (b :: m ++ END_BLOCK ++ rest)
     then Some ([], drop (length END_BLOCK) (b :: m ++ END_BLOCK ++ rest))
     else match split_once END_BLOCK (m ++ END_BLOCK ++ rest) with
          | Some (before, after) => Some (b :: before, after)
          | None => None
          end).
  rewrite (starts_END_before_END _ _ _ Hs), (IH Hc). done.
Qed.

Lemma contains_terminated m rest :
  contains END_BLOCK (m ++ END_BLOCK ++ rest) = true.
Proof.
  induction m as [|b m IH]; [done|].
  change (contains END_BLOCK ((b :: m) ++ END_BLOCK ++ rest)) with
    (startswith END_BLOCK (b :: m ++ END_BLOCK ++ rest)
     || contains END_BLOCK (m ++ END_BLOCK ++ rest)).
  rewrite IH. apply orb_true_r.
Qed.

Lemma short_no_END p : length p < 2 -> contains END_BLOCK p = false.
Proof.
  destruct p as [|a [|b p]]; simpl; intros Hl; [done| |lia].
  by rewrite andb_false_r.
Qed.

(** No proper prefix of a terminated payload holds a terminator. *)
Lemma proper_prefix_no_END m p s :
  contains END_BLOCK m = false ->
  p ++ s = m ++ END_BLOCK -> s <> [] -> contains END_BLOCK p = false.
Proof.
  revert p; induction m as [|b m IH]; intros p Hm Heq Hs.
  - apply short_no_END. apply (f_equal length) in Heq.
    rewrite length_app in Heq. simpl in Heq. destruct s; [done|simpl in Heq; lia].
  - destruct p as [|b' p]; [done|].
    apply contains_END_cons in Hm as [Hst Hm].
    simpl in Heq. injection Heq as -> Heq.
    apply contains_END_cons. split; [|by eapply IH].
    destruct (startswith END_BLOCK (b :: p)) eqn:Hp; [|done].
    apply starts_END_inv in Hp as [r [= -> ->]].
    destruct m as [|c m]; simpl in Heq.
    + by injection Heq.
    + injection Heq as <- _. by simpl in Hst.
Qed.

(** The bytes before the leftmost terminator hold none. *)
Lemma split_once_leftmost data before after :
  split_once END_BLOCK data = Some (before, after) ->
  contains END_BLOCK before = false.
Proof.
  revert before; induction data as [|d data IH]; intros before; [done|].
  change (split_once END_BLOCK (d :: data)) with
    (if startswith END_BLOCK (d :: data)
     then Some ([], drop (length END_BLOCK) (d :: data))
     else match split_once END_BLOCK data with
          | Some (before, after) => Some (d :: before, after)
          | None => None
          end).
  destruct (startswith END_BLOCK (d :: data)) eqn:Hs; [by intros [= <- <-]|].
  destruct (split_once END_BLOCK data) as [[b a]|] eqn:Hd; [|done].
  intros [= <- <-]. apply contains_END_cons. split; [|by apply IH].
  destruct (startswith END_BLOCK (d :: b)) eqn:Hb; [|done].
  apply starts_END_inv in Hb as [r [= -> ->]].
  apply split_once_app in Hd as ->. done.
Qed.

(** ** The inner loop: fuel, unfolding, invariant *)

Lemma END_BLOCK_nonempty : END_BLOCK <> [].
Proof. done. Qed.

(** The loop gives the same result for every bound above the length of
    the buffer: it is left by its own test, not by the bound. *)
Lemma extract_loop_fuel f1 f2 buffer :
  length buffer < f1 -> length buffer < f2 ->
  extract_loop f1 buffer = extract_loop f2 buffer.
Proof.
  revert f2 buffer; induction f1 as [|f1 IH]; intros [|f2] buffer H1 H2;
    try lia.
  simpl. destruct (contains END_BLOCK buffer); [|done].
  destruct (split_once END_BLOCK buffer) as [[message buffer']|] eqn:Hs;
    [|done].
  apply (split_once_shorter _ _ _ _ END_BLOCK_nonempty) in Hs.
  rewrite (IH f2 buffer') by lia. done.
Qed.

Lemma extract_ready_frames_unfold buffer :
  extract_ready_frames buffer =
  if contains END_BLOCK buffer then
    match split_once END_BLOCK buffer with
    | Some (message, buffer') =>
        let '(frames, rest) := extract_ready_frames buffer' in
        (strip_start message :: frames, rest)
    | None => ([], buffer)
    end
  else ([], buffer).
Proof.
  unfold extract_ready_frames at 1. simpl.
  destruct (contains END_BLOCK buffer); [|done].
  destruct (split_once END_BLOCK buffer) as [[message buffer']|] eqn:Hs;
    [|done].
  apply (split_once_shorter _ _ _ _ END_BLOCK_nonempty) in Hs.
  unfold extract_ready_frames.
  rewrite (extract_loop_fuel (length buffer) (S (length buffer'))) by lia.
  done.
Qed.

Lemma extract_none buffer :
  contains END_BLOCK buffer = false -> extract_ready_frames buffer = ([], buffer).
Proof. intros H. by rewrite extract_ready_frames_unfold, H. Qed.

Lemma extract_terminated m rest :
  contains END_BLOCK m = false ->
  extract_ready_frames (m ++ END_BLOCK ++ rest) =
  (strip_start m :: (extract_ready_frames rest).1,
   (extract_ready_frames rest).2).
Proof.
  intros H. rewrite extract_ready_frames_unfold, contains_terminated,
    split_once_terminated by done.
  by destruct (extract_ready_frames rest).
Qed.

(** What a pass leaves and what it has taken off: the buffer it was given
    is the raw frames, each followed by its terminator, then the buffer it
    leaves; the raw frames and the buffer left hold no terminator. *)
Lemma extract_loop_invariant fuel buffer :
  length buffer < fuel ->
  exists raws,
    (extract_loop fuel buffer).1 = map strip_start raws /\
    buffer = concat (map (fun raw => raw ++ END_BLOCK) raws)
             ++ (extract_loop fuel buffer).2 /\
    Forall (fun raw => contains END_BLOCK raw = false) raws /\
    contains END_BLOCK (extract_loop fuel buffer).2 = false.
Proof.
  revert buffer; induction fuel as [|fuel IH]; intros buffer Hf; [lia|].
  simpl. destruct (contains END_BLOCK buffer) eqn:Hc.
  - destruct (split_once END_BLOCK buffer) as [[message buffer']|] eqn:Hs.
    + pose proof (split_once_shorter _ _ _ _ END_BLOCK_nonempty Hs) as Hlt.
      destruct (IH buffer') as (raws & Hfr & Hbuf & Hraw & Hrest); [lia|].
      destruct (extract_loop fuel buffer') as [frames rest]; simpl in *.
      exists (message :: raws). repeat split.
      * by rewrite Hfr.
      * apply split_once_app in Hs as Hb. rewrite Hb, Hbuf at 1.
        simpl. by rewrite <- !app_assoc.
      * constructor; [by eapply split_once_leftmost|done].
      * done.
    + apply contains_split_once in Hc as [? ?]. congruence.
  - by exists [].
Qed.

(** ** Passes over chunks *)

Lemma feed_partial buffer data m s :
  contains END_BLOCK m = false ->
  (buffer ++ data) ++ s = m ++ END_BLOCK -> s <> [] ->
  feed buffer data = ([], buffer ++ data).
Proof.
  intros Hm Heq Hs. apply extract_none. by eapply proper_prefix_no_END.
Qed.

Lemma feed_complete buffer data m :
  contains END_BLOCK m = false ->
  buffer ++ data = m ++ END_BLOCK ->
  feed buffer data = ([strip_start m], []).
Proof.
  intros Hm Heq. unfold feed. rewrite Heq.
  rewrite <- (app_nil_r END_BLOCK). by rewrite extract_terminated.
Qed.

Lemma feed_all_nothing chunks :
  concat chunks = [] -> feed_all [] chunks = ([], []).
Proof.
  induction chunks as [|c chunks IH]; [done|]. simpl.
  intros [-> Hc]%app_eq_nil.
  change (feed [] []) with (@nil bytes, @nil byte). cbv beta iota zeta.
  by rewrite (IH Hc).
Qed.

(** Chunks that together complete one terminated payload give that payload
    once, whatever the cuts and wherever empty chunks stand. *)
Lemma feed_all_one_frame m chunks buffer :
  contains END_BLOCK m = false ->
  buffer ++ concat chunks = m ++ END_BLOCK ->
  concat chunks <> [] ->
  feed_all buffer chunks = ([strip_start m], []).
Proof.
  intros Hm. revert buffer; induction chunks as [|c chunks IH];
    intros buffer Heq Hne; [done|].
  simpl in *. destruct (decide (concat chunks = [])) as [Hnil|Hmore].
  - rewrite Hnil, app_nil_r in Heq.
    rewrite (feed_complete _ _ m), (feed_all_nothing _ Hnil); done.
  - rewrite (feed_partial buffer c m (concat chunks)); try done.
    + rewrite (IH (buffer ++ c)); [done| |done]. by rewrite <- app_assoc.
    + by rewrite <- app_assoc.
Qed.

Lemma contains_START_cons m :
  contains END_BLOCK (x0b :: m) = contains END_BLOCK m.
Proof. done. Qed.

Lemma mllp_frame_raw m : mllp_frame m = (x0b :: m) ++ END_BLOCK.
Proof. done. Qed.

(** Complete frames laid end to end, then a partial one. *)
Lemma extract_frames_then_partial ms partial :
  Forall (fun m => contains END_BLOCK m = false) ms ->
  contains END_BLOCK partial = false ->
  extract_ready_frames (concat (map mllp_frame ms) ++ partial) = (ms, partial).
Proof.
  intros Hms Hp. induction Hms as [|m ms Hm _ IH].
  - by apply extract_none.
  - change (concat (map mllp_frame (m :: ms)))
      with (mllp_frame m ++ concat (map mllp_frame ms)).
    rewrite mllp_frame_raw, <- !app_assoc.
    rewrite extract_terminated by done. by rewrite IH.
Qed.

(** ** The handler of [src/test2.py] *)

Section HandlerFacts.

Variable decode : bytes -> string.
Variable now : datetime.

Local Abbreviation on_frame := (Test2.on_frame decode now).
Local Abbreviation frame_loop := (Test2.frame_loop decode now).
Local Abbreviation recv_loop := (Test2.recv_loop decode now).
Local Abbreviation handle_client := (Test2.handle_client decode now).

(** The ACK every frame is answered with. *)
Local Abbreviation ack_of message :=
  (encode (Test2.create_ack_response now (Some (decode message)))).

Lemma frames_of_app e1 e2 :
  Test2.frames_of (e1 ++ e2) = Test2.frames_of e1 ++ Test2.frames_of e2.
Proof. apply omap_app. Qed.

Lemma sent_of_app e1 e2 :
  Test2.sent_of (e1 ++ e2) = Test2.sent_of e1 ++ Test2.sent_of e2.
Proof. apply omap_app. Qed.

Lemma saved_of_app e1 e2 :
  Test2.saved_of (e1 ++ e2) = Test2.saved_of e1 ++ Test2.saved_of e2.
Proof. apply omap_app. Qed.

Lemma on_frame_events message :
  on_frame message =
  [Test2.LogCompleteMessage message;
   Test2.LogRawMessage (decode message);
   Test2.SaveLabResults
     (Test2.process_complete_hl7_message (decode message)).1
     (Test2.process_complete_hl7_message (decode message)).2;
   Test2.Send (ack_of message)].
Proof.
  unfold Test2.on_frame.
  by destruct (Test2.process_complete_hl7_message (decode message)).
Qed.

Lemma frames_of_flat_map ms :
  Test2.frames_of (flat_map on_frame ms) = ms.
Proof.
  induction ms as [|m ms IH]; [done|]. simpl.
  rewrite frames_of_app, IH, on_frame_events. done.
Qed.

Lemma sent_of_flat_map ms :
  Test2.sent_of (flat_map on_frame ms) = map (fun m => ack_of m) ms.
Proof.
  induction ms as [|m ms IH]; [done|]. simpl.
  rewrite sent_of_app, IH, on_frame_events. done.
Qed.

Lemma saved_of_flat_map ms :
  Test2.saved_of (flat_map on_frame ms) =
  map (fun m => Test2.process_complete_hl7_message (decode m)) ms.
Proof.
  induction ms as [|m ms IH]; [done|]. simpl.
  rewrite saved_of_app, IH, on_frame_events.
  by destruct (Test2.process_complete_hl7_message (decode m)).
Qed.

Lemma no_error_flat_map ms :
  Test2.LogError ∉ flat_map on_frame ms.
Proof.
  induction ms as [|m ms IH]; simpl; [by apply not_elem_of_nil|].
  rewrite on_frame_events. intros Hin.
  apply elem_of_app in Hin as [Hin|Hin]; [|done].
  repeat (apply elem_of_cons in Hin as [Hin|Hin]; [done|]).
  by apply elem_of_nil in Hin.
Qed.

(** The inner loop of the handler does to the buffer what [extract_loop]
    does, and runs [on_frame] on every payload, in order. *)
Lemma frame_loop_extract fuel buffer :
  frame_loop fuel buffer =
  (flat_map on_frame (extract_loop fuel buffer).1,
   (extract_loop fuel buffer).2).
Proof.
  revert buffer; induction fuel as [|fuel IH]; intros buffer; [done|].
  simpl. destruct (contains END_BLOCK buffer); [|done].
  destruct (split_once END_BLOCK buffer) as [[message buffer']|]; [|done].
  rewrite IH. by destruct (extract_loop fuel buffer').
Qed.

(** One round of the outer loop on a non-empty read. *)
Lemma recv_loop_data data script buffer :
  data <> [] ->
  recv_loop (Test2.Data data :: script) buffer =
  (Test2.LogReceived (length data)
     :: flat_map on_frame (feed buffer data).1
     ++ (recv_loop script (feed buffer data).2).1,
   (recv_loop script (feed buffer data).2).2).
Proof.
  intros Hd. destruct data as [|d data]; [done|].
  change (recv_loop (Test2.Data (d :: data) :: script) buffer) with
    (let buffer := buffer ++ d :: data in
     let '(events, buffer) := frame_loop (S (length buffer)) buffer in
     let '(events', final) := recv_loop script buffer in
     (Test2.LogReceived (length (d :: data)) :: events ++ events', final)).
  cbv zeta. rewrite frame_loop_extract. unfold feed, extract_ready_frames.
  by destruct (recv_loop script _).
Qed.

(** Over reads that all carry data, the handler takes off its buffer what
    the passes of the framing loop take, and keeps what they keep. *)
Lemma recv_loop_frames chunks buffer :
  Forall (fun c => c <> []) chunks ->
  Test2.frames_of (recv_loop (map Test2.Data chunks) buffer).1
    = (feed_all buffer chunks).1 /\
  (recv_loop (map Test2.Data chunks) buffer).2 = (feed_all buffer chunks).2.
Proof.
  intros Hne; revert buffer.
  induction Hne as [|c chunks Hc _ IH]; intros buffer; [done|].
  change (map Test2.Data (c :: chunks))
    with (Test2.Data c :: map Test2.Data chunks).
  rewrite recv_loop_data by done. simpl.
  destruct (IH (feed buffer c).2) as [IH1 IH2].
  destruct (feed buffer c) as [frames buffer']; simpl in *.
  destruct (feed_all buffer' chunks) as [frames' final]; simpl in *.
  split; [|done].
  change (Test2.frames_of (?e :: ?l)) with (Test2.frames_of l).
  by rewrite frames_of_app, frames_of_flat_map, IH1.
Qed.

(** Whatever the reads, one ACK is sent per frame taken off the buffer,
    and one result saved. *)
Lemma recv_loop_sent script buffer :
  Test2.sent_of (recv_loop script buffer).1
  = map (fun m => ack_of m) (Test2.frames_of (recv_loop script buffer).1).
Proof.
  revert buffer; induction script as [|[data|] script IH]; intros buffer;
    [done| |done].
  destruct (decide (data = [])) as [->|Hd]; [done|].
  rewrite recv_loop_data by done. simpl.
  change (Test2.frames_of (?e :: ?l)) with (Test2.frames_of l).
  change (Test2.sent_of (?e :: ?l)) with (Test2.sent_of l).
  by rewrite sent_of_app, frames_of_app, sent_of_flat_map,
    frames_of_flat_map, map_app, IH.
Qed.

Lemma recv_loop_saved script buffer :
  Test2.saved_of (recv_loop script buffer).1
  = map (fun m => Test2.process_complete_hl7_message (decode m))
        (Test2.frames_of (recv_loop script buffer).1).
Proof.
  revert buffer; induction script as [|[data|] script IH]; intros buffer;
    [done| |done].
  destruct (decide (data = [])) as [->|Hd]; [done|].
  rewrite recv_loop_data by done. simpl.
  change (Test2.frames_of (?e :: ?l)) with (Test2.frames_of l).
  change (Test2.saved_of (?e :: ?l)) with (Test2.saved_of l).
  by rewrite saved_of_app, frames_of_app, saved_of_flat_map,
    frames_of_flat_map, map_app, IH.
Qed.

(** Reads that do not raise leave no error in the log. *)
Lemma recv_loop_no_error chunks buffer :
  Test2.LogError ∉ (recv_loop (map Test2.Data chunks) buffer).1.
Proof.
  revert buffer; induction chunks as [|c chunks IH]; intros buffer;
    [by apply not_elem_of_nil|].
  change (map Test2.Data (c :: chunks))
    with (Test2.Data c :: map Test2.Data chunks).
  destruct (decide (c = [])) as [->|Hd]; [by apply not_elem_of_nil|].
  rewrite recv_loop_data by done. simpl. intros Hin.
  apply elem_of_cons in Hin as [Hin|Hin]; [done|].
  apply elem_of_app in Hin as [Hin|Hin]; [by eapply no_error_flat_map|].
  by eapply IH.
Qed.

Lemma handle_client_events script :
  handle_client script =
  ((recv_loop script []).1 ++ [Test2.CloseSocket; Test2.LogConnectionClosed],
   (recv_loop script []).2).
Proof. unfold Test2.handle_client. by destruct (recv_loop script []). Qed.

End HandlerFacts.

(** ** Framing *)

(** C2. For every message text [M] that holds no terminator and every way
    of cutting the bytes [0x0B M 0x1C 0x0D] into chunks, the passes of the
    framing loop over the chunks take exactly one frame off the buffer, its
    payload is [M], and the buffer is left empty; that holds wherever empty
    chunks stand.  The handler of a connection, to which an empty read
    means that the peer has closed, does the same on every cut into
    non-empty reads. *)
Theorem framing_round_trip (decode : bytes -> string) (now : datetime)
    (M : bytes) (chunks : list bytes) :
  contains END_BLOCK M = false ->
  concat chunks = mllp_frame M ->
  feed_all [] chunks = ([M], []) /\
  (Forall (fun c => c <> []) chunks ->
   Test2.frames_of
     (Test2.handle_client decode now (map Test2.Data chunks)).1 = [M] /\
   (Test2.handle_client decode now (map Test2.Data chunks)).2 = []).
Proof.
  intros HM Hcat.
  assert (Hall : feed_all [] chunks = ([M], [])).
  { apply (feed_all_one_frame (x0b :: M)); [done|by rewrite Hcat|].
    by rewrite Hcat. }
  split; [done|]. intros Hne.
  rewrite handle_client_events. simpl.
  destruct (recv_loop_frames decode now chunks [] Hne) as [Hf Hb].
  rewrite frames_of_app, Hf, Hb, Hall. done.
Qed.

(** The frame [MSH] cut inside the payload and inside the terminator. *)
Lemma framing_round_trip_witness :
  feed_all [] [[x0b; x4d]; [x53; x48; x1c]; [x0d]] = ([[x4d; x53; x48]], [])
  /\ Test2.frames_of
       (Test2.handle_client decode_ascii noon
          (map Test2.Data [[x0b; x4d]; [x53; x48; x1c]; [x0d]])).1
     = [[x4d; x53; x48]].
Proof.
  destruct (framing_round_trip decode_ascii noon [x4d; x53; x48]
              [[x0b; x4d]; [x53; x48; x1c]; [x0d]] eq_refl eq_refl)
    as [Hfeed Hhandler].
  split; [exact Hfeed|].
  apply Hhandler. repeat constructor; discriminate.
Defined.

(** C4. After every pass the buffer that was fed is the frames taken off,
    each with its terminator, followed by the buffer that is left, and
    neither a frame nor the buffer left holds a terminator: completed frames
    are gone from the buffer with their terminators, the incomplete tail is
    kept byte for byte.  Hence a chunk that ends inside a frame gives no
    frame and is kept behind the buffer, and the chunk that completes the
    frame gives exactly one frame, the whole payload without its start
    byte, and leaves the buffer empty. *)
Theorem buffer_invariant (buffer data : bytes) :
  (exists raws,
     (feed buffer data).1 = map strip_start raws /\
     buffer ++ data
       = concat (map (fun raw => raw ++ END_BLOCK) raws) ++ (feed buffer data).2 /\
     Forall (fun raw => contains END_BLOCK raw = false) raws /\
     contains END_BLOCK (feed buffer data).2 = false) /\
  (forall payload completion : bytes,
     contains END_BLOCK payload = false ->
     (buffer ++ data) ++ completion = payload ++ END_BLOCK ->
     completion <> [] ->
     feed buffer data = ([], buffer ++ data) /\
     feed (buffer ++ data) completion = ([strip_start payload], [])).
Proof.
  split.
  - apply extract_loop_invariant. lia.
  - intros payload completion Hp Heq Hc. split.
    + by eapply feed_partial.
    + by apply feed_complete.
Qed.

(** The frame [AB]: the first chunk ends on the first terminator byte. *)
Lemma buffer_invariant_witness :
  feed [x0b; x41] [x42; x1c] = ([], [x0b; x41; x42; x1c]) /\
  feed [x0b; x41; x42; x1c] [x0d] = ([[x41; x42]], []).
Proof.
  apply (proj2 (buffer_invariant [x0b; x41] [x42; x1c])
           [x0b; x41; x42] [x0d]); [reflexivity|reflexivity|discriminate].
Defined.

(** A chunk made of complete frames laid end to end, whose payloads hold
    no terminator, possibly followed by the beginning of a further frame,
    gives all the frames in one pass, in the order they were sent, and
    keeps the beginning; the handler of [src/test2.py] runs its frame body
    once for each of them, in that order, before it reads again. *)
Theorem back_to_back_frames (decode : bytes -> string) (now : datetime)
    (Ms : list bytes) (partial : bytes) :
  Forall (fun M => contains END_BLOCK M = false) Ms ->
  contains END_BLOCK partial = false ->
  let data := concat (map mllp_frame Ms) ++ partial in
  feed [] data = (Ms, partial) /\
  (data <> [] ->
   Test2.handle_client decode now [Test2.Data data] =
   (Test2.LogReceived (length data)
      :: flat_map (Test2.on_frame decode now) Ms
      ++ [Test2.CloseSocket; Test2.LogConnectionClosed],
    partial)).
Proof.
  intros HMs Hp data.
  assert (Hfeed : feed [] data = (Ms, partial))
    by by apply extract_frames_then_partial.
  split; [done|]. intros Hd.
  rewrite handle_client_events, recv_loop_data, Hfeed by done.
  simpl. by rewrite app_nil_r.
Qed.

(** Two frames, [A] and [B], in one read. *)
Lemma back_to_back_frames_witness :
  feed [] [x0b; x41; x1c; x0d; x0b; x42; x1c; x0d] = ([[x41]; [x42]], []) /\
  Test2.frames_of
    (Test2.handle_client decode_ascii noon
       [Test2.Data [x0b; x41; x1c; x0d; x0b; x42; x1c; x0d]]).1
  = [[x41]; [x42]].
Proof.
  destruct (back_to_back_frames decode_ascii noon [[x41]; [x42]] [])
    as [Hfeed Hhandler].
  - repeat constructor.
  - reflexivity.
  - split; [exact Hfeed|].
    simpl in Hhandler. rewrite Hhandler by discriminate. reflexivity.
Defined.

(** ** Facts on [str] *)

#[local] Arguments String.append : simpl nomatch.

Section StrFacts.

Implicit Types s a b : string.

Lemma append_assoc a b s : (a +:+ b) +:+ s = a +:+ (b +:+ s).
Proof. induction a as [|c a IH]; simpl; [done|by rewrite IH]. Qed.

Lemma append_nonempty a b : b <> "" -> a +:+ b <> "".
Proof. by destruct a. Qed.

Lemma occurs_app c a b : occurs c (a +:+ b) = occurs c a || occurs c b.
Proof.
  induction a as [|d a IH]; simpl; [done|]. by rewrite IH, orb_assoc.
Qed.

Lemma split_nonempty sep s : split sep s <> [].
Proof.
  destruct s as [|c s]; simpl; [done|].
  destruct (Ascii.eqb c sep); [done|]. by destruct (split sep s).
Qed.

(** A piece without separator, then the separator: the piece is the first
    item. *)
Lemma split_app_sep sep a b :
  occurs sep a = false -> split sep (a +:+ String sep b) = a :: split sep b.
Proof.
  induction a as [|c a IH]; simpl.
  - intros _. by rewrite Ascii.eqb_refl.
  - intros [Hc Ha]%orb_false_iff. by rewrite Hc, (IH Ha).
Qed.

Lemma split_no_sep sep a : occurs sep a = false -> split sep a = [a].
Proof.
  induction a as [|c a IH]; simpl; [done|].
  intros [Hc Ha]%orb_false_iff. by rewrite Hc, (IH Ha).
Qed.

(** Trailing white space is looked for in the last piece only. *)
Lemma rstrip_app_keep a b : rstrip b <> "" -> rstrip (a +:+ b) = a +:+ rstrip b.
Proof.
  intros Hb. induction a as [|c a IH]; simpl; [done|].
  rewrite IH. destruct (a +:+ rstrip b) eqn:Heq; [|done].
  by apply (append_nonempty a) in Hb.
Qed.

End StrFacts.

(** ** The timestamp *)

Lemma digit_code n : nat_of_ascii (digit n) = 48 + n mod 10.
Proof.
  unfold digit. apply nat_ascii_embedding.
  pose proof (Nat.mod_upper_bound n 10). lia.
Qed.

Lemma digit_neq n c :
  nat_of_ascii c < 48 \/ 57 < nat_of_ascii c -> Ascii.eqb (digit n) c = false.
Proof.
  intros Hc. apply Ascii.eqb_neq. intros <-. rewrite digit_code in Hc.
  pose proof (Nat.mod_upper_bound n 10). lia.
Qed.

Lemma digit_inj n m : digit n = digit m -> n mod 10 = m mod 10.
Proof.
  intros H%(f_equal nat_of_ascii). rewrite !digit_code in H. lia.
Qed.

Lemma pad2_inj n m : n < 100 -> m < 100 -> pad2 n = pad2 m -> n = m.
Proof.
  intros Hn Hm H. unfold pad2 in H.
  assert (digit (n / 10) = digit (m / 10)) as H1%digit_inj by congruence.
  assert (digit n = digit m) as H2%digit_inj by congruence.
  pose proof (Nat.div_mod_eq n 10). pose proof (Nat.div_mod_eq m 10).
  assert (n / 10 < 10) by (apply Nat.Div0.div_lt_upper_bound; lia).
  assert (m / 10 < 10) by (apply Nat.Div0.div_lt_upper_bound; lia).
  rewrite (Nat.mod_small (n / 10)), (Nat.mod_small (m / 10)) in H1 by done.
  lia.
Qed.

Lemma pad2_app_inj n m s t :
  n < 100 -> m < 100 -> pad2 n +:+ s = pad2 m +:+ t -> n = m /\ s = t.
Proof.
  intros Hn Hm H.
  change (String (digit (n / 10)) (String (digit n) s)
          = String (digit (m / 10)) (String (digit m) t)) in H.
  assert (digit (n / 10) = digit (m / 10)) as H1 by congruence.
  assert (digit n = digit m) as H2 by congruence.
  split; [|congruence].
  apply pad2_inj; [done..|]. unfold pad2. by rewrite H1, H2.
Qed.

Lemma occurs_pad2 c n s :
  nat_of_ascii c < 48 \/ 57 < nat_of_ascii c ->
  occurs c (pad2 n +:+ s) = occurs c s.
Proof. intros Hc. unfold pad2. cbn [append occurs]. by rewrite !digit_neq. Qed.

Lemma occurs_strftime c now :
  nat_of_ascii c < 48 \/ 57 < nat_of_ascii c -> occurs c (strftime now) = false.
Proof.
  intros Hc. unfold strftime, pad4, pad2. cbn [append occurs].
  by rewrite !digit_neq.
Qed.

Lemma strftime_inj t1 t2 :
  valid_datetime t1 -> valid_datetime t2 ->
  strftime t1 = strftime t2 -> same_second t1 t2.
Proof.
  intros (Hy1 & Hmo1 & Hd1 & Hh1 & Hmi1 & Hs1) (Hy2 & Hmo2 & Hd2 & Hh2 & Hmi2 & Hs2).
  unfold strftime, pad4. rewrite !append_assoc. intros H.
  assert (year t1 / 100 < 100) by (apply Nat.Div0.div_lt_upper_bound; lia).
  assert (year t2 / 100 < 100) by (apply Nat.Div0.div_lt_upper_bound; lia).
  pose proof (Nat.mod_upper_bound (year t1) 100).
  pose proof (Nat.mod_upper_bound (year t2) 100).
  apply pad2_app_inj in H as [Hc H]; [|lia..].
  apply pad2_app_inj in H as [Hyy H]; [|lia..].
  apply pad2_app_inj in H as [Hmo H]; [|lia..].
  apply pad2_app_inj in H as [Hd H]; [|lia..].
  apply pad2_app_inj in H as [Hh H]; [|lia..].
  apply pad2_app_inj in H as [Hmi H]; [|lia..].
  apply pad2_inj in H as Hs; [|lia..].
  pose proof (Nat.div_mod_eq (year t1) 100).
  pose proof (Nat.div_mod_eq (year t2) 100).
  repeat split; try done. lia.
Qed.

Lemma same_second_strftime t1 t2 : same_second t1 t2 -> strftime t1 = strftime t2.
Proof.
  intros (Hy & Hmo & Hd & Hh & Hmi & Hs). unfold strftime.
  by rewrite Hy, Hmo, Hd, Hh, Hmi, Hs.
Qed.

(** ** The fields of the ACK of [src/python-hl7main.py] *)

Lemma rstrip_fixed_app (a b : string) :
  rstrip b = b /\ b <> "" -> rstrip (a +:+ b) = a +:+ b /\ a +:+ b <> "".
Proof.
  intros [Hr Hne]. split; [|by apply append_nonempty].
  rewrite rstrip_app_keep; by rewrite Hr.
Qed.

(** The two segments the server's own cutting finds in the ACK frame. *)
Lemma hl7main_ack_segments now :
  Test2.segments_of (Hl7Main.create_ack_response now) =
  ["MSH|^~\&|RECEIVER|HOSPITAL|SWELAB|LAB|" +:+ strftime now
     +:+ "||ACK|" +:+ strftime now +:+ "|P|2.4";
   "MSA|AA|" +:+ strftime now +:+ "|Message accepted"].
Proof.
  assert (Hcr : occurs CR (strftime now) = false)
    by (apply occurs_strftime; vm_compute; lia).
  unfold Hl7Main.create_ack_response. cbv zeta.
  generalize dependent (strftime now). intros ts Hcr.
  set (seg1 := "MSH|^~\&|RECEIVER|HOSPITAL|SWELAB|LAB|" +:+ ts
               +:+ "||ACK|" +:+ ts +:+ "|P|2.4").
  set (seg2 := "MSA|AA|" +:+ ts +:+ "|Message accepted").
  match goal with |- Test2.segments_of ?t = _ =>
    assert (Hshape : t = String VT seg1
              +:+ String CR (seg2 +:+ String CR (String FS "" +:+ String CR "")))
  end.
  { unfold seg1, seg2. repeat (simpl; rewrite ?append_assoc). reflexivity. }
  assert (H1 : occurs CR (String VT seg1) = false).
  { unfold seg1. repeat (simpl; rewrite ?occurs_app, ?Hcr). reflexivity. }
  assert (H2 : occurs CR seg2 = false).
  { unfold seg2. repeat (simpl; rewrite ?occurs_app, ?Hcr). reflexivity. }
  unfold Test2.segments_of. rewrite Hshape.
  rewrite (split_app_sep CR _ _ H1), (split_app_sep CR _ _ H2).
  change (String FS "" +:+ String CR "") with (String FS (String CR "")).
  change (split CR (String FS (String CR ""))) with [String FS ""; ""].
  cbn [omap list_omap].
  assert (Hs1 : strip (String VT seg1) = seg1).
  { unfold strip. change (lstrip (String VT seg1)) with seg1.
    unfold seg1. by repeat apply rstrip_fixed_app. }
  assert (Hs2 : strip seg2 = seg2).
  { unfold strip. change (lstrip seg2) with seg2.
    unfold seg2. by repeat apply rstrip_fixed_app. }
  rewrite Hs1, Hs2. reflexivity.
Qed.

Lemma hl7main_msa_fields now :
  segment_fields "MSA" (Hl7Main.create_ack_response now)
  = Some ["MSA"; "AA"; strftime now; "Message accepted"].
Proof.
  assert (Hbar : occurs "|" (strftime now) = false)
    by (apply occurs_strftime; vm_compute; lia).
  unfold segment_fields. rewrite hl7main_ack_segments.
  generalize dependent (strftime now). intros ts Hbar.
  rewrite filter_cons_False, filter_cons_True by done.
  change ("MSA|AA|" +:+ ts +:+ "|Message accepted")
    with ("MSA" +:+ String "|" ("AA" +:+ String "|"
            (ts +:+ String "|" "Message accepted"))).
  by rewrite !split_app_sep.
Qed.

Lemma hl7main_msh_fields now :
  segment_fields "MSH" (Hl7Main.create_ack_response now)
  = Some ["MSH"; "^~\&"; "RECEIVER"; "HOSPITAL"; "SWELAB"; "LAB";
          strftime now; ""; "ACK"; strftime now; "P"; "2.4"].
Proof.
  assert (Hbar : occurs "|" (strftime now) = false)
    by (apply occurs_strftime; vm_compute; lia).
  unfold segment_fields. rewrite hl7main_ack_segments.
  generalize dependent (strftime now). intros ts Hbar.
  rewrite filter_cons_True by done.
  change ("MSH|^~\&|RECEIVER|HOSPITAL|SWELAB|LAB|" +:+ ts
          +:+ "||ACK|" +:+ ts +:+ "|P|2.4")
    with ("MSH" +:+ String "|" ("^~\&" +:+ String "|" ("RECEIVER" +:+ String "|"
           ("HOSPITAL" +:+ String "|" ("SWELAB" +:+ String "|" ("LAB" +:+ String "|"
           (ts +:+ String "|" ("" +:+ String "|" ("ACK" +:+ String "|"
           (ts +:+ String "|" ("P" +:+ String "|" "2.4"))))))))))).
  by rewrite !split_app_sep.
Qed.

(** ** The ACK builders *)

Lemma hl7main_control_id now :
  msh_field 10 (Hl7Main.create_ack_response now) = Some (strftime now).
Proof. unfold msh_field. by rewrite hl7main_msh_fields. Qed.

Lemma hl7main_echoed_id now :
  msa_field 2 (Hl7Main.create_ack_response now) = Some (strftime now).
Proof. unfold msa_field. by rewrite hl7main_msa_fields. Qed.

(** C10. [create_ack_response] of [src/test2.py] is a constant function:
    whatever the message it is given (or none) and whatever the clock
    shows, it returns the same frame, whose timestamp field is
    [20250906121328] and whose control ID is [BM_3]. *)
Theorem ack_is_constant (now1 now2 : datetime) (m1 m2 : option string) :
  Test2.create_ack_response now1 m1 = Test2.create_ack_response now2 m2 /\
  Test2.create_ack_response now1 m1 = fixed_ack /\
  encode (Test2.create_ack_response now1 m1)
    = encode (Test2.create_ack_response now2 m2) /\
  msh_field 7 (Test2.create_ack_response now1 m1) = Some "20250906121328" /\
  msh_field 10 (Test2.create_ack_response now1 m1) = Some "BM_3".
Proof. repeat split; vm_compute; reflexivity. Qed.

(** C1, as the code has it.  The ACK does not echo the control ID of the
    message it answers: its [MSA] field 2 is the control ID of the ACK
    itself, the constant [BM_3] in [src/test2.py], whatever the frame, and
    the timestamp read off the clock in [src/python-hl7main.py], whose
    builder is not even given the message. *)
Theorem ack_carries_own_control_id (decode : bytes -> string)
    (now : datetime) (message : bytes) :
  let ack := Test2.create_ack_response now (Some (decode message)) in
  Test2.sent_of (Test2.on_frame decode now message) = [encode ack] /\
  msa_field 2 ack = Some "BM_3" /\
  msh_field 10 ack = Some "BM_3" /\
  msa_field 2 (Hl7Main.create_ack_response now) = Some (strftime now) /\
  msh_field 10 (Hl7Main.create_ack_response now) = Some (strftime now).
Proof.
  cbv zeta. split; [by rewrite on_frame_events|].
  split; [vm_compute; reflexivity|]. split; [vm_compute; reflexivity|].
  by rewrite hl7main_echoed_id, hl7main_control_id.
Qed.

(** C1 fails on a message whose control ID is [Q123]: the handler of
    [src/test2.py] answers it with [BM_3] in [MSA] field 2, the builder of
    [src/python-hl7main.py] with the time of day. *)
Lemma ack_echo_counterexample :
  msh_field 10 query_text = Some "Q123" /\
  Test2.sent_of
    (Test2.handle_client decode_ascii noon
       [Test2.Data (mllp_frame (encode query_text))]).1
  = [encode (Test2.create_ack_response noon (Some query_text))] /\
  msa_field 2 (Test2.create_ack_response noon (Some query_text)) = Some "BM_3" /\
  msa_field 2 (Test2.create_ack_response noon (Some query_text)) <> Some "Q123" /\
  msa_field 2 (Hl7Main.create_ack_response noon) = Some "20240101120000".
Proof. repeat split; try (vm_compute; reflexivity). vm_compute. discriminate. Qed.

(** C7, as the code has it.  The control IDs of the ACKs are not unique.
    Every ACK of [src/test2.py] carries the control ID [BM_3].  The control
    ID of an ACK of [src/python-hl7main.py] is the time it was built at, to
    the second: two ACKs have the same control ID exactly when they were
    built within the same calendar second. *)
Theorem ack_control_ids (t1 t2 : datetime) (m1 m2 : option string) :
  msh_field 10 (Test2.create_ack_response t1 m1) = Some "BM_3" /\
  msh_field 10 (Test2.create_ack_response t2 m2) = Some "BM_3" /\
  (valid_datetime t1 -> valid_datetime t2 ->
   (msh_field 10 (Hl7Main.create_ack_response t1)
    = msh_field 10 (Hl7Main.create_ack_response t2)
    <-> same_second t1 t2)).
Proof.
  split; [vm_compute; reflexivity|]. split; [vm_compute; reflexivity|].
  intros Hv1 Hv2. rewrite !hl7main_control_id. split.
  - intros H. apply strftime_inj; [done..|congruence].
  - intros H. by rewrite (same_second_strftime _ _ H).
Qed.

(** Two readings of the clock one microsecond apart. *)
Lemma ack_control_ids_witness :
  msh_field 10 (Hl7Main.create_ack_response noon)
  = msh_field 10 (Hl7Main.create_ack_response noon_later).
Proof.
  destruct (ack_control_ids noon noon_later None None) as (_ & _ & Hiff).
  apply Hiff.
  - unfold valid_datetime; simpl; lia.
  - unfold valid_datetime; simpl; lia.
  - repeat split.
Defined.

(** C7 fails: two frames in one read are answered with two ACKs that carry
    the same control ID, and so are two ACKs of [src/python-hl7main.py]
    built at different instants of one second. *)
Lemma control_id_collision :
  Test2.sent_of
    (Test2.handle_client decode_ascii noon
       [Test2.Data (mllp_frame (encode oru_text)
                    ++ mllp_frame (encode query_text))]).1
  = [encode (Test2.create_ack_response noon (Some oru_text));
     encode (Test2.create_ack_response noon (Some query_text))] /\
  msh_field 10 (Test2.create_ack_response noon (Some oru_text))
  = msh_field 10 (Test2.create_ack_response noon (Some query_text)) /\
  noon <> noon_later /\
  msh_field 10 (Hl7Main.create_ack_response noon) = Some "20240101120000" /\
  msh_field 10 (Hl7Main.create_ack_response noon_later) = Some "20240101120000".
Proof. repeat split; try (vm_compute; reflexivity). discriminate. Qed.

(** ** The segment reader *)

(** C9: the code takes index 10 of the [|]-split [MSH] line, which is
    field 11 of the segment, the processing ID; on the message of the
    end-to-end scenario it stores [P] under [message_control_id] (and the
    empty field 8 under [timestamp]), where field 10, the control ID, is
    [CTRL1]. *)
Theorem control_id_off_by_one :
  msh_field 10 oru_message = Some "CTRL1" /\
  (Test2.process_complete_hl7_message oru_message).1 !! "message_control_id"
  = Some "P" /\
  (Test2.process_complete_hl7_message oru_message).1 !! "timestamp" = Some "" /\
  (Test2.process_complete_hl7_message oru_text).1 !! "message_control_id"
  = Some "P".
Proof. repeat split; vm_compute; reflexivity. Qed.

Lemma process_segment_results acc segment :
  (Test2.process_segment acc segment).2
  = acc.2 ++ option_list (obx_result segment).
Proof.
  destruct acc as [patient_data lab_results].
  unfold Test2.process_segment, obx_result. simpl.
  destruct segment as [|c segment]; [by rewrite app_nil_r|].
  cbn [truthy negb].
  destruct (String.eqb (prefix 3 (String c segment)) "MSH") eqn:Emsh.
  { apply String.eqb_eq in Emsh as ->. simpl.
    by destruct (bool_decide _); rewrite app_nil_r. }
  destruct (String.eqb (prefix 3 (String c segment)) "OBR") eqn:Eobr.
  { apply String.eqb_eq in Eobr as ->. simpl.
    by destruct (bool_decide _); rewrite app_nil_r. }
  destruct (String.eqb (prefix 3 (String c segment)) "OBX") eqn:Eobx.
  - by destruct (bool_decide _); rewrite ?app_nil_r.
  - by rewrite app_nil_r.
Qed.

Lemma fold_process_results segments acc :
  (fold_left Test2.process_segment segments acc).2
  = acc.2 ++ omap obx_result segments.
Proof.
  revert acc; induction segments as [|seg segments IH]; intros acc; simpl.
  - by rewrite app_nil_r.
  - rewrite IH, process_segment_results, <- app_assoc. f_equal.
    by destruct (obx_result seg).
Qed.

(** The reader of [src/test2.py] rejects nothing: whatever the decoded
    text of a frame, the handler calls the reader once, saves what it
    returns and sends the ACK; the results saved are those of the [OBX]
    segments of more than five fields, in their order. *)
Lemma test2_reader_accepts_all (decode : bytes -> string) (now : datetime)
    (message : bytes) :
  let text := decode message in
  Test2.saved_of (Test2.on_frame decode now message)
    = [Test2.process_complete_hl7_message text] /\
  Test2.sent_of (Test2.on_frame decode now message)
    = [encode (Test2.create_ack_response now (Some text))] /\
  (Test2.process_complete_hl7_message text).2
    = omap obx_result (Test2.segments_of text).
Proof.
  cbv zeta. rewrite on_frame_events. repeat split.
  - by destruct (Test2.process_complete_hl7_message (decode message)).
  - unfold Test2.process_complete_hl7_message. by rewrite fold_process_results.
Qed.

(** C3 fails on a text whose only segment is an [OBX] line: it is
    malformed, and its result is read and saved; so is the empty result of
    the empty text. *)
Lemma malformed_text_processed :
  malformed obx_text = true /\
  Test2.process_complete_hl7_message obx_text = (∅, [hgb_result]) /\
  Test2.saved_of
    (Test2.handle_client decode_ascii noon
       [Test2.Data (mllp_frame (encode obx_text))]).1
  = [(∅, [hgb_result])] /\
  malformed "" = true /\
  Test2.process_complete_hl7_message "" = (∅, []).
Proof. repeat split; vm_compute; reflexivity. Qed.

(** ** The connection *)

Section ConnectionFacts.

Variable decode : bytes -> string.
Variable now : datetime.

(** An empty read ends the loop: what is scripted after it is not read. *)
Lemma recv_loop_eof chunks rest buffer :
  Forall (fun c => c <> []) chunks ->
  Test2.recv_loop decode now (map Test2.Data chunks ++ Test2.Data [] :: rest) buffer
  = Test2.recv_loop decode now (map Test2.Data chunks) buffer.
Proof.
  intros Hne; revert buffer.
  induction Hne as [|c chunks Hc _ IH]; intros buffer; [done|].
  change (map Test2.Data (c :: chunks) ++ Test2.Data [] :: rest)
    with (Test2.Data c :: (map Test2.Data chunks ++ Test2.Data [] :: rest)).
  change (map Test2.Data (c :: chunks))
    with (Test2.Data c :: map Test2.Data chunks).
  by rewrite !recv_loop_data, IH.
Qed.

End ConnectionFacts.

(** C6, as the code has it.  A frame whose text is malformed does not end
    the connection, and it is answered like every other frame, with the
    code [AA]: over the reads of a connection the handler takes every
    frame the framing loop delivers, before and after a malformed one,
    sends for each of them the ACK, whose [MSA] field 1 is [AA] whatever
    the text, and logs no error. *)
Theorem malformed_frame_acked_AA (decode : bytes -> string) (now : datetime)
    (chunks : list bytes) :
  Forall (fun c => c <> []) chunks ->
  let events := (Test2.handle_client decode now (map Test2.Data chunks)).1 in
  Test2.frames_of events = (feed_all [] chunks).1 /\
  Test2.sent_of events
    = map (fun m => encode (Test2.create_ack_response now (Some (decode m))))
          (Test2.frames_of events) /\
  (forall m, msa_field 1 (Test2.create_ack_response now (Some (decode m)))
             = Some "AA") /\
  Test2.LogError ∉ events.
Proof.
  intros Hne. cbv zeta. rewrite handle_client_events. simpl.
  destruct (recv_loop_frames decode now chunks [] Hne) as [Hf _].
  rewrite frames_of_app, sent_of_app, recv_loop_sent, Hf. simpl.
  rewrite !app_nil_r. split; [done|]. split; [done|]. split.
  - intros m. vm_compute. reflexivity.
  - intros [Hin|Hin]%elem_of_app.
    + by eapply recv_loop_no_error.
    + repeat (apply elem_of_cons in Hin as [Hin|Hin]; [done|]).
      by apply elem_of_nil in Hin.
Qed.

(** A malformed frame cut in two reads, then a well-formed one: two ACKs. *)
Lemma malformed_frame_acked_AA_witness :
  Test2.sent_of
    (Test2.handle_client decode_ascii noon
       (map Test2.Data [[x0b; x50; x49]; [x44; x1c; x0d];
                        mllp_frame (encode oru_text)])).1
  = [encode fixed_ack; encode fixed_ack].
Proof.
  assert (Hne : Forall (fun c : bytes => c <> [])
                  [[x0b; x50; x49]; [x44; x1c; x0d];
                   mllp_frame (encode oru_text)])
    by (repeat constructor; discriminate).
  pose proof (malformed_frame_acked_AA decode_ascii noon _ Hne) as Hrun.
  cbv zeta in Hrun. destruct Hrun as (Hframes & Hsent & _ & _).
  rewrite Hsent, Hframes. reflexivity.
Defined.

(** C6 fails on a frame whose text is a lone [OBX] line: the text is
    malformed and the ACK sent for it carries the code [AA]. *)
Lemma malformed_frame_ack_code :
  malformed obx_text = true /\
  Test2.sent_of
    (Test2.handle_client decode_ascii noon
       [Test2.Data (mllp_frame (encode obx_text))]).1
  = [encode fixed_ack] /\
  msa_field 1 fixed_ack = Some "AA".
Proof. repeat split; vm_compute; reflexivity. Qed.

(** C8, as the code has it.  When the peer closes, the handler leaves its
    loop, closes the socket and logs that the connection is closed; what
    the buffer still holds, the incomplete frame the framing loop has
    kept, is dropped without a word: no error is logged, and the frames
    taken are the complete ones only. *)
Theorem leftover_dropped_silently (decode : bytes -> string)
    (now : datetime) (chunks : list bytes) (unread : list Test2.recv_result) :
  Forall (fun c => c <> []) chunks ->
  let run := Test2.handle_client decode now
               (map Test2.Data chunks ++ Test2.Data [] :: unread) in
  run = Test2.handle_client decode now (map Test2.Data chunks) /\
  run.2 = (feed_all [] chunks).2 /\
  (Test2.LogError ∉ run.1) /\
  Test2.frames_of run.1 = (feed_all [] chunks).1 /\
  Test2.sent_of run.1
    = map (fun m => encode (Test2.create_ack_response now (Some (decode m))))
          (feed_all [] chunks).1 /\
  exists earlier,
    run.1 = earlier ++ [Test2.CloseSocket; Test2.LogConnectionClosed].
Proof.
  intros Hne. cbv zeta.
  rewrite !handle_client_events, recv_loop_eof by done. simpl.
  destruct (recv_loop_frames decode now chunks [] Hne) as [Hf Hb].
  split; [done|]. split; [done|]. split; [|split; [|split]].
  - intros [Hin|Hin]%elem_of_app.
    + by eapply recv_loop_no_error.
    + repeat (apply elem_of_cons in Hin as [Hin|Hin]; [done|]).
      by apply elem_of_nil in Hin.
  - by rewrite frames_of_app, Hf, app_nil_r.
  - by rewrite sent_of_app, recv_loop_sent, Hf, app_nil_r.
  - by eexists.
Qed.

(** The start of a frame, then the peer closes. *)
Lemma leftover_dropped_silently_witness :
  Test2.handle_client decode_ascii noon
    (map Test2.Data [[x0b; x4d; x53]; [x48]] ++ [Test2.Data []; Test2.Raise])
  = Test2.handle_client decode_ascii noon
      (map Test2.Data [[x0b; x4d; x53]; [x48]]).
Proof.
  assert (Hne : Forall (fun c : bytes => c <> []) [[x0b; x4d; x53]; [x48]])
    by (repeat constructor; discriminate).
  pose proof (leftover_dropped_silently decode_ascii noon _ [Test2.Raise] Hne)
    as Hrun.
  cbv zeta in Hrun. exact (proj1 Hrun).
Defined.

(** C8 fails on a connection that sends the first four bytes of a frame
    and closes: the handler returns holding these four bytes, and all it
    has logged is the read and the end of the connection. *)
Lemma leftover_not_reported :
  Test2.handle_client decode_ascii noon [Test2.Data [x0b; x4d; x53; x48]]
  = ([Test2.LogReceived 4; Test2.CloseSocket; Test2.LogConnectionClosed],
     [x0b; x4d; x53; x48]) /\
  [x0b; x4d; x53; x48] <> [] /\
  (Test2.LogError ∉
     (Test2.handle_client decode_ascii noon
        [Test2.Data [x0b; x4d; x53; x48]]).1).
Proof.
  split; [reflexivity|]. split; [discriminate|].
  intros Hin. vm_compute in Hin.
  repeat (apply elem_of_cons in Hin as [Hin|Hin]; [discriminate|]).
  by apply elem_of_nil in Hin.
Qed.

(** * Further properties of the framing loop *)

(** The leftmost terminator of a buffer stays the leftmost one when bytes
    are added behind the buffer. *)
Lemma split_once_more buffer data message rest :
  split_once END_BLOCK buffer = Some (message, rest) ->
  split_once END_BLOCK (buffer ++ data) = Some (message, rest ++ data).
Proof.
  intros Hs. pose proof (split_once_leftmost _ _ _ Hs) as Hm.
  apply split_once_app in Hs as ->.
  rewrite <- !app_assoc. by apply split_once_terminated.
Qed.

(** A pass over [buffer ++ data] is a pass over [buffer] followed by a
    pass over what it leaves and [data]. *)
Lemma extract_app buffer data :
  extract_ready_frames (buffer ++ data) =
  ((extract_ready_frames buffer).1
     ++ (extract_ready_frames ((extract_ready_frames buffer).2 ++ data)).1,
   (extract_ready_frames ((extract_ready_frames buffer).2 ++ data)).2).
Proof.
  remember (length buffer) as n eqn:Hn. revert buffer Hn.
  induction n as [n IH] using lt_wf_ind; intros buffer ->.
  rewrite (extract_ready_frames_unfold buffer).
  destruct (contains END_BLOCK buffer) eqn:Hc; [|by simpl; destruct (extract_ready_frames _)].
  destruct (split_once END_BLOCK buffer) as [[message rest]|] eqn:Hs.
  - pose proof (split_once_shorter _ _ _ _ END_BLOCK_nonempty Hs) as Hlt.
    pose proof (split_once_more _ data _ _ Hs) as Hs'.
    rewrite (extract_ready_frames_unfold (buffer ++ data)), Hs'.
    assert (contains END_BLOCK (buffer ++ data) = true) as ->
      by (apply contains_split_once; eauto).
    rewrite (IH (length rest) Hlt rest eq_refl).
    by destruct (extract_ready_frames rest).
  - apply contains_split_once in Hc as [? ?]. congruence.
Qed.

Lemma feed_leaves_no_END buffer data :
  contains END_BLOCK (feed buffer data).2 = false.
Proof.
  destruct (extract_loop_invariant (S (length (buffer ++ data))) (buffer ++ data))
    as (raws & _ & _ & _ & H); [lia|done].
Qed.

(** The passes over the chunks of a stream do what one pass over the whole
    stream does. *)
Lemma feed_all_concat buffer chunks :
  contains END_BLOCK buffer = false ->
  feed_all buffer chunks = extract_ready_frames (buffer ++ concat chunks).
Proof.
  revert buffer; induction chunks as [|c chunks IH]; intros buffer Hb.
  - simpl. by rewrite app_nil_r, extract_none.
  - simpl. pose proof (feed_leaves_no_END buffer c) as Hleft.
    rewrite app_assoc, (extract_app (buffer ++ c)).
    unfold feed in *. destruct (extract_ready_frames (buffer ++ c)) as [f b'].
    simpl in *. rewrite (IH b' Hleft).
    by destruct (extract_ready_frames (b' ++ concat chunks)).
Qed.

(** X1. The frames a connection yields do not depend on how the stream is
    cut into reads: the passes of the framing loop over the chunks, empty
    ones included, give the frames and the rest that one pass over the
    whole stream gives, and so does the handler on every cut into
    non-empty reads. *)
Theorem chunking_independence (decode : bytes -> string) (now : datetime)
    (chunks : list bytes) :
  feed_all [] chunks = extract_ready_frames (concat chunks) /\
  (Forall (fun c => c <> []) chunks ->
   let run := Test2.handle_client decode now (map Test2.Data chunks) in
   Test2.frames_of run.1 = (extract_ready_frames (concat chunks)).1 /\
   run.2 = (extract_ready_frames (concat chunks)).2).
Proof.
  assert (Hall : feed_all [] chunks = extract_ready_frames (concat chunks))
    by by rewrite feed_all_concat.
  split; [done|]. intros Hne. cbv zeta.
  rewrite handle_client_events. simpl.
  destruct (recv_loop_frames decode now chunks [] Hne) as [Hf Hb].
  by rewrite frames_of_app, Hf, Hb, Hall, app_nil_r.
Qed.

(** Two frames and the start of a third, cut at odd places. *)
Lemma chunking_independence_witness :
  Test2.frames_of
    (Test2.handle_client decode_ascii noon
       (map Test2.Data [[x0b; x41; x1c]; [x0d; x0b]; [x42; x1c; x0d; x0b; x43]])).1
  = [[x41]; [x42]].
Proof.
  assert (Hne : Forall (fun c : bytes => c <> [])
                  [[x0b; x41; x1c]; [x0d; x0b]; [x42; x1c; x0d; x0b; x43]])
    by (repeat constructor; discriminate).
  pose proof (proj2 (chunking_independence decode_ascii noon _) Hne) as [Hf _].
  rewrite Hf. reflexivity.
Defined.

(** X2. A stream that never holds a terminator is kept whole, however long
    it is: the handler takes no frame, sends nothing, and holds every byte
    it has read when the peer closes. *)
Theorem unterminated_stream_kept (decode : bytes -> string) (now : datetime)
    (chunks : list bytes) :
  Forall (fun c => c <> []) chunks ->
  contains END_BLOCK (concat chunks) = false ->
  let run := Test2.handle_client decode now (map Test2.Data chunks) in
  Test2.frames_of run.1 = [] /\ Test2.sent_of run.1 = [] /\
  Test2.saved_of run.1 = [] /\ run.2 = concat chunks.
Proof.
  intros Hne Hc. cbv zeta. rewrite handle_client_events. simpl.
  destruct (recv_loop_frames decode now chunks [] Hne) as [Hf Hb].
  rewrite frames_of_app, sent_of_app, saved_of_app, recv_loop_sent,
    recv_loop_saved, Hf, Hb.
  rewrite feed_all_concat by done. simpl. by rewrite extract_none.
Qed.

Lemma unterminated_stream_kept_witness :
  (Test2.handle_client decode_ascii noon
     (map Test2.Data [[x0b; x41; x1c]; [x1c; x42]])).2
  = [x0b; x41; x1c; x1c; x42].
Proof.
  assert (Hne : Forall (fun c : bytes => c <> []) [[x0b; x41; x1c]; [x1c; x42]])
    by (repeat constructor; discriminate).
  pose proof (unterminated_stream_kept decode_ascii noon _ Hne eq_refl) as Hrun.
  cbv zeta in Hrun. exact (proj2 (proj2 (proj2 Hrun))).
Defined.

(** X3. The start byte is looked for at the first place of a frame only,
    and one start byte is taken off, not more: a frame that begins with
    two start bytes keeps the second in its payload, and bytes that come
    before a start byte stay in the payload together with that start
    byte. *)
Theorem start_byte_only_first (noise M : bytes) :
  contains END_BLOCK (noise ++ x0b :: M) = false ->
  feed [] (x0b :: noise ++ mllp_frame M) = ([noise ++ x0b :: M], []) /\
  feed [] (x0b :: x0b :: M ++ END_BLOCK) = ([x0b :: M], []) /\
  strip_start (x0b :: x0b :: M) = x0b :: M /\
  (noise <> [] -> startswith START_BLOCK noise = false ->
   feed [] (noise ++ mllp_frame M) = ([noise ++ x0b :: M], [])).
Proof.
  intros Hc.
  assert (HM : contains END_BLOCK (x0b :: M) = false).
  { clear -Hc. induction noise as [|b noise IH]; [done|].
    simpl in Hc. apply contains_END_cons in Hc as [_ Hc]. by apply IH. }
  split; [|split; [|split]].
  - rewrite (feed_complete [] _ (x0b :: noise ++ x0b :: M)); [done|done|].
    simpl. by rewrite mllp_frame_raw, <- app_assoc.
  - by rewrite (feed_complete [] _ (x0b :: x0b :: M)).
  - done.
  - intros Hne Hn.
    rewrite (feed_complete [] _ (noise ++ x0b :: M)); [|done|].
    + unfold strip_start. destruct noise as [|b noise]; [done|].
      change (startswith START_BLOCK ((b :: noise) ++ x0b :: M))
        with (startswith START_BLOCK (b :: noise)). by rewrite Hn.
    + simpl. by rewrite mllp_frame_raw, <- app_assoc.
Qed.

(** Two start bytes in front of [A]; a line feed in front of the frame
    [A]. *)
Lemma start_byte_only_first_witness :
  feed [] [x0b; x0b; x41; x1c; x0d] = ([[x0b; x41]], []) /\
  feed [] ([x0a] ++ mllp_frame [x41]) = ([[x0a; x0b; x41]], []).
Proof.
  split.
  - destruct (start_byte_only_first [] [x41]) as (_ & Htwo & _);
      [reflexivity|exact Htwo].
  - destruct (start_byte_only_first [x0a] [x41]) as (_ & _ & _ & Hnoise);
      [reflexivity|].
    apply Hnoise; [discriminate|reflexivity].
Defined.

Lemma recv_loop_raise decode now chunks unread buffer :
  Forall (fun c => c <> []) chunks ->
  Test2.recv_loop decode now (map Test2.Data chunks ++ Test2.Raise :: unread) buffer
  = ((Test2.recv_loop decode now (map Test2.Data chunks) buffer).1
       ++ [Test2.LogError],
     (Test2.recv_loop decode now (map Test2.Data chunks) buffer).2).
Proof.
  intros Hne; revert buffer.
  induction Hne as [|c chunks Hc _ IH]; intros buffer; [done|].
  change (map Test2.Data (c :: chunks) ++ Test2.Raise :: unread)
    with (Test2.Data c :: (map Test2.Data chunks ++ Test2.Raise :: unread)).
  change (map Test2.Data (c :: chunks))
    with (Test2.Data c :: map Test2.Data chunks).
  rewrite !recv_loop_data, IH by done. simpl. by rewrite <- app_assoc.
Qed.

(** X4. When [recv] raises in the middle of a connection, the frames that
    were complete before have been processed and acknowledged as on a
    connection that the peer closes at that point; the handler logs the
    error once, after them, closes the socket, and drops what the buffer
    held. *)
Theorem transport_error_after_frames (decode : bytes -> string)
    (now : datetime) (chunks : list bytes) (unread : list Test2.recv_result) :
  Forall (fun c => c <> []) chunks ->
  let run := Test2.handle_client decode now
               (map Test2.Data chunks ++ Test2.Raise :: unread) in
  let closed := Test2.handle_client decode now (map Test2.Data chunks) in
  run.1 = (Test2.recv_loop decode now (map Test2.Data chunks) []).1
          ++ [Test2.LogError; Test2.CloseSocket; Test2.LogConnectionClosed] /\
  Test2.frames_of run.1 = Test2.frames_of closed.1 /\
  Test2.sent_of run.1 = Test2.sent_of closed.1 /\
  Test2.saved_of run.1 = Test2.saved_of closed.1 /\
  run.2 = closed.2.
Proof.
  intros Hne. cbv zeta. rewrite !handle_client_events, recv_loop_raise by done.
  simpl. rewrite <- app_assoc. split; [done|].
  by rewrite !frames_of_app, !sent_of_app, !saved_of_app.
Qed.

(** One frame, then the connection is reset. *)
Lemma transport_error_after_frames_witness :
  Test2.sent_of
    (Test2.handle_client decode_ascii noon
       (map Test2.Data [mllp_frame (encode oru_text)] ++ [Test2.Raise])).1
  = [encode fixed_ack].
Proof.
  assert (Hne : Forall (fun c : bytes => c <> []) [mllp_frame (encode oru_text)])
    by (repeat constructor; discriminate).
  pose proof (transport_error_after_frames decode_ascii noon _ [] Hne) as Hrun.
  cbv zeta in Hrun. destruct Hrun as (_ & _ & Hsent & _).
  rewrite Hsent. reflexivity.
Defined.

(** * Further properties of the segment reader *)

Section StripFacts.

Implicit Types s t : string.

Lemma rstrip_idem s : rstrip (rstrip s) = rstrip s.
Proof.
  induction s as [|c s IH]; [done|]. simpl.
  destruct (rstrip s) as [|d r] eqn:Hr.
  - destruct (isspace c) eqn:Hc; [done|]. simpl. by rewrite Hc.
  - change (rstrip (String c (String d r)))
      with (match rstrip (String d r) with
            | EmptyString => if isspace c then EmptyString else String c EmptyString
            | r' => String c r'
            end).
    by rewrite IH.
Qed.

Lemma lstrip_head s :
  lstrip s = "" \/ exists c t, lstrip s = String c t /\ isspace c = false.
Proof.
  induction s as [|c s IH]; [by left|]. simpl.
  destruct (isspace c) eqn:Hc; [done|]. right. eauto.
Qed.

Lemma rstrip_head c t :
  isspace c = false -> exists r, rstrip (String c t) = String c r.
Proof.
  intros Hc. simpl. destruct (rstrip t); rewrite ?Hc; eauto.
Qed.

(** Stripping a stripped string changes nothing. *)
Lemma strip_idem s : strip (strip s) = strip s.
Proof.
  unfold strip. destruct (lstrip_head s) as [->|(c & t & -> & Hc)]; [done|].
  destruct (rstrip_head c t Hc) as [r Hr].
  assert (lstrip (rstrip (String c t)) = rstrip (String c t)) as ->
    by (rewrite Hr; simpl; by rewrite Hc).
  apply rstrip_idem.
Qed.

Lemma occurs_lstrip c s : occurs c s = false -> occurs c (lstrip s) = false.
Proof.
  induction s as [|d s IH]; [done|]. simpl.
  intros [Hd Hs]%orb_false_iff. destruct (isspace d); [by apply IH|].
  simpl. by rewrite Hd, Hs.
Qed.

Lemma occurs_rstrip c s : occurs c s = false -> occurs c (rstrip s) = false.
Proof.
  induction s as [|d s IH]; [done|]. simpl.
  intros [Hd Hs]%orb_false_iff. specialize (IH Hs).
  destruct (rstrip s) as [|e r].
  - destruct (isspace d); [done|]. simpl. by rewrite Hd.
  - simpl in *. by rewrite Hd, IH.
Qed.

Lemma occurs_strip c s : occurs c s = false -> occurs c (strip s) = false.
Proof. intros H. by apply occurs_rstrip, occurs_lstrip. Qed.

(** No piece of a split holds the separator. *)
Lemma split_pieces sep s : Forall (fun p => occurs sep p = false) (split sep s).
Proof.
  induction s as [|c s IH]; simpl; [by repeat constructor|].
  destruct (Ascii.eqb c sep) eqn:Hc; [by constructor|].
  destruct (split sep s) as [|w ws]; [repeat constructor; simpl; by rewrite Hc|].
  apply Forall_cons in IH as [Hw Hws]. constructor; [|done].
  simpl. by rewrite Hc, Hw.
Qed.

End StripFacts.

(** X5. The segments the reader works on are clean: none is empty, none
    begins or ends with white space (stripping it again changes nothing),
    and none holds a carriage return; blank lines and the white space
    around a line never reach the loop over the segments. *)
Theorem segments_clean (complete_message : string) :
  Forall (fun seg => seg <> "" /\ strip seg = seg /\ occurs CR seg = false)
         (Test2.segments_of complete_message).
Proof.
  unfold Test2.segments_of.
  pose proof (split_pieces CR complete_message) as Hp.
  induction Hp as [|p ps Hp _ IH]; [constructor|].
  cbn [omap list_omap]. destruct (truthy (strip p)) eqn:Ht; [|exact IH].
  constructor; [|exact IH]. repeat split.
  - by destruct (strip p).
  - apply strip_idem.
  - by apply occurs_strip.
Qed.

(** What a segment does to [patient_data]. *)
Lemma process_segment_data acc segment :
  (Test2.process_segment acc segment).1 =
  match msh_entry segment with
  | Some (control_id, timestamp) =>
      <["timestamp" := timestamp]>
        (<["message_control_id" := control_id]> acc.1)
  | None =>
      match obr_entry segment with
      | Some (patient_info, specimen_id) =>
          <["specimen_id" := specimen_id]>
            (<["patient_info" := patient_info]> acc.1)
      | None => acc.1
      end
  end.
Proof.
  destruct acc as [patient_data lab_results].
  unfold Test2.process_segment, msh_entry, obr_entry. simpl.
  destruct segment as [|c segment]; [done|]. cbn [truthy negb].
  destruct (String.eqb (prefix 3 (String c segment)) "MSH") eqn:Emsh.
  { apply String.eqb_eq in Emsh as ->. simpl. by destruct (bool_decide _). }
  destruct (String.eqb (prefix 3 (String c segment)) "OBR") eqn:Eobr.
  { by destruct (bool_decide _). }
  destruct (String.eqb (prefix 3 (String c segment)) "OBX") eqn:Eobx; [|done].
  by destruct (bool_decide _).
Qed.

(** A key that the last segment giving a value for it decides. *)
Lemma fold_process_lookup (key : string) (value : string -> option string) :
  (forall acc segment,
     (Test2.process_segment acc segment).1 !! key
     = match value segment with Some v => Some v | None => acc.1 !! key end) ->
  forall segments acc,
    (fold_left Test2.process_segment segments acc).1 !! key
    = match last (omap value segments) with
      | Some v => Some v
      | None => acc.1 !! key
      end.
Proof.
  intros Hstep segments. induction segments as [|seg segments IH];
    intros acc; [done|].
  cbn [fold_left]. rewrite IH, Hstep. cbn [omap list_omap].
  destruct (value seg) as [v|]; [|done].
  rewrite last_cons. by destruct (last (omap value segments)).
Qed.

(** X6. What the reader stores in [patient_data] is decided by the last
    segment that stores it: [message_control_id] and [timestamp] are the
    pieces 10 and 7 of the last [MSH] line split in more than ten pieces,
    [patient_info] and [specimen_id] the pieces 4 and 3 of the last [OBR]
    line split in more than four; a key is absent when no such line
    exists, and no other key is ever stored. *)
Theorem patient_data_last_wins (complete_message : string) :
  let segments := Test2.segments_of complete_message in
  let patient_data := (Test2.process_complete_hl7_message complete_message).1 in
  patient_data !! "message_control_id"
    = last (omap (fun seg => fst <$> msh_entry seg) segments) /\
  patient_data !! "timestamp"
    = last (omap (fun seg => snd <$> msh_entry seg) segments) /\
  patient_data !! "patient_info"
    = last (omap (fun seg => fst <$> obr_entry seg) segments) /\
  patient_data !! "specimen_id"
    = last (omap (fun seg => snd <$> obr_entry seg) segments) /\
  forall key,
    key <> "message_control_id" -> key <> "timestamp" ->
    key <> "patient_info" -> key <> "specimen_id" ->
    patient_data !! key = None.
Proof.
  cbv zeta. unfold Test2.process_complete_hl7_message.
  assert (Hexcl : forall seg c t p s,
            msh_entry seg = Some (c, t) -> obr_entry seg = Some (p, s) -> False).
  { intros seg c t p s. unfold msh_entry, obr_entry.
    destruct (String.eqb (prefix 3 seg) "MSH") eqn:E; [|done].
    apply String.eqb_eq in E as ->. done. }
  repeat split.
  - rewrite (fold_process_lookup _ (fun seg => fst <$> msh_entry seg)).
    + by destruct (last _).
    + intros acc seg. rewrite process_segment_data.
      destruct (msh_entry seg) as [[c t]|]; simpl; [by simplify_map_eq|].
      destruct (obr_entry seg) as [[p s]|]; by simplify_map_eq.
  - rewrite (fold_process_lookup _ (fun seg => snd <$> msh_entry seg)).
    + by destruct (last _).
    + intros acc seg. rewrite process_segment_data.
      destruct (msh_entry seg) as [[c t]|]; simpl; [by simplify_map_eq|].
      destruct (obr_entry seg) as [[p s]|]; by simplify_map_eq.
  - rewrite (fold_process_lookup _ (fun seg => fst <$> obr_entry seg)).
    + by destruct (last _).
    + intros acc seg. rewrite process_segment_data.
      destruct (msh_entry seg) as [[c t]|] eqn:Em;
        destruct (obr_entry seg) as [[p s]|] eqn:Eo; simpl;
        try by simplify_map_eq.
      by destruct (Hexcl _ _ _ _ _ Em Eo).
  - rewrite (fold_process_lookup _ (fun seg => snd <$> obr_entry seg)).
    + by destruct (last _).
    + intros acc seg. rewrite process_segment_data.
      destruct (msh_entry seg) as [[c t]|] eqn:Em;
        destruct (obr_entry seg) as [[p s]|] eqn:Eo; simpl;
        try by simplify_map_eq.
      by destruct (Hexcl _ _ _ _ _ Em Eo).
  - intros key H1 H2 H3 H4.
    rewrite (fold_process_lookup key (fun _ => None)).
    + assert (omap (fun _ : string => @None string)
                (Test2.segments_of complete_message) = []) as ->
        by (induction (Test2.segments_of complete_message); done).
      done.
    + intros acc seg. rewrite process_segment_data.
      destruct (msh_entry seg) as [[c t]|]; [by simplify_map_eq|].
      destruct (obr_entry seg) as [[p s]|]; by simplify_map_eq.
Qed.

(** A key other than the four the reader stores. *)
Lemma patient_data_last_wins_witness :
  (Test2.process_complete_hl7_message oru_message).1 !! "patient_name" = None.
Proof.
  pose proof (patient_data_last_wins oru_message) as Hlast. cbv zeta in Hlast.
  destruct Hlast as (_ & _ & _ & _ & Hother).
  apply Hother; discriminate.
Defined.

(** * Properties of the file of results of [src/test2.py] *)

Lemma test_names_table_sound :
  Forall (fun entry => entry.2 <> "" /\ Test2Save.test_names !! entry.2 = None)
         Test2Save.test_names_table.
Proof. repeat constructor; try discriminate; vm_compute; reflexivity. Qed.

Lemma test_names_lookup code name :
  Test2Save.test_names !! code = Some name ->
  name <> "" /\ Test2Save.test_names !! name = None.
Proof.
  intros Hl. apply elem_of_list_to_map_2 in Hl.
  pose proof test_names_table_sound as Hs.
  rewrite Forall_forall in Hs. exact (Hs _ Hl).
Qed.

Lemma get_test_name_not_blank test_code :
  test_code <> "" -> Test2Save.get_test_name test_code <> "".
Proof.
  unfold Test2Save.get_test_name.
  destruct (Test2Save.test_names !! test_code) as [name|] eqn:Hl;
    cbn [from_option id]; [|done].
  intros _. by destruct (test_names_lookup _ _ Hl).
Qed.

(** X7. [get_test_name] never gives a blank name for a code that is not
    blank, gives the code itself when the table does not know it, and
    gives a name that it leaves as it is: no name of the table is itself a
    code of the table. *)
Theorem get_test_name_stable (test_code : string) :
  (test_code <> "" -> Test2Save.get_test_name test_code <> "") /\
  (Test2Save.test_names !! test_code = None ->
   Test2Save.get_test_name test_code = test_code) /\
  Test2Save.get_test_name (Test2Save.get_test_name test_code)
  = Test2Save.get_test_name test_code.
Proof.
  unfold Test2Save.get_test_name.
  destruct (Test2Save.test_names !! test_code) as [name|] eqn:Hl;
    cbn [from_option id].
  - destruct (test_names_lookup _ _ Hl) as [Hne Hnone].
    split; [done|]. split; [done|]. by rewrite Hnone.
  - split; [done|]. split; [done|]. by rewrite Hl.
Qed.

(** A code the table does not know. *)
Lemma get_test_name_stable_witness :
  Test2Save.get_test_name "XYZ" = "XYZ" /\ Test2Save.get_test_name "XYZ" <> "".
Proof.
  destruct (get_test_name_stable "XYZ") as (Hblank & Hunknown & _).
  split; [apply Hunknown; reflexivity|apply Hblank; discriminate].
Defined.

(** X8. The rows of the file are six heading rows followed by one row for
    each result whose code and value are both not blank, in the order of
    the results; the other results are left out.  Every row of a result
    has six columns, and its code, its name and its value are not
    blank. *)
Theorem csv_rows_shape (now_row : datetime) (patient_data : gmap string string)
    (lab_results : list Test2.test_result) :
  let rows := Test2Save.csv_rows now_row patient_data lab_results in
  drop 6 rows
  = map Test2Save.result_row
        (filter (fun r => Test2Save.written r = true) lab_results) /\
  length rows <= 6 + length lab_results /\
  Forall (fun row =>
            exists code value units range status,
              row = [code; Test2Save.get_test_name code; value; units; range;
                     status] /\
              code <> "" /\ Test2Save.get_test_name code <> "" /\ value <> "")
         (drop 6 rows).
Proof.
  cbv zeta. unfold Test2Save.csv_rows. cbn [app drop]. split; [done|].
  split.
  - cbn [length]. rewrite length_map.
    pose proof (length_filter (fun r => Test2Save.written r = true) lab_results).
    lia.
  - apply Forall_map, Forall_forall. intros r [Hw _]%list_elem_of_filter.
    unfold Test2Save.written in Hw. apply andb_true_iff in Hw as [Hc Hv].
    exists (Test2.test_code r), (Test2.test_value r), (Test2.units r),
      (Test2.reference_range r), (Test2.status r).
    split; [done|].
    assert (Test2.test_code r <> "") by (by destruct (Test2.test_code r)).
    repeat split; [done| |by destruct (Test2.test_value r)].
    by apply get_test_name_not_blank.
Qed.

Lemma occurs_replace_old old new s :
  new <> old -> occurs old (replace_char old new s) = false.
Proof.
  intros Hne. induction s as [|c s IH]; [done|]. simpl. rewrite IH, orb_false_r.
  destruct (Ascii.eqb c old) eqn:Hc; [by apply Ascii.eqb_neq|done].
Qed.

Lemma occurs_replace_other c old new s :
  new <> c -> occurs c s = false -> occurs c (replace_char old new s) = false.
Proof.
  intros Hne. induction s as [|d s IH]; [done|]. simpl.
  intros [Hd Hs]%orb_false_iff. rewrite (IH Hs), orb_false_r.
  destruct (Ascii.eqb d old); [by apply Ascii.eqb_neq|done].
Qed.

Lemma occurs_clean c name :
  c = " "%char \/ c = "/"%char \/ c = "\"%char \/ c = ":"%char ->
  occurs c (Test2Save.clean name) = false.
Proof.
  unfold Test2Save.clean. intros [ -> | [ -> | [ -> | -> ] ] ].
  - do 3 (apply occurs_replace_other; [done|]). by apply occurs_replace_old.
  - do 2 (apply occurs_replace_other; [done|]). by apply occurs_replace_old.
  - apply occurs_replace_other; [done|]. by apply occurs_replace_old.
  - by apply occurs_replace_old.
Qed.

Lemma occurs_strftime_file c now :
  nat_of_ascii c < 48 \/ 57 < nat_of_ascii c -> c <> "_"%char ->
  occurs c (strftime_file now) = false.
Proof.
  intros Hc Hu. unfold strftime_file, pad4, pad2. cbn [append occurs].
  rewrite !digit_neq by done.
  by apply Ascii.eqb_neq in Hu; rewrite Ascii.eqb_sym, Hu.
Qed.

(** X9. The name of the file of results holds no space, no slash, no
    backslash and no colon, whatever the patient data hold and whatever
    the clock shows: the file is written into the working directory. *)
Theorem filename_has_no_separator (now : datetime)
    (patient_data : gmap string string) (c : ascii) :
  c = " "%char \/ c = "/"%char \/ c = "\"%char \/ c = ":"%char ->
  occurs c (Test2Save.filename now patient_data) = false.
Proof.
  intros Hc. unfold Test2Save.filename. cbv zeta.
  rewrite !occurs_app, !occurs_clean by done.
  rewrite occurs_strftime_file.
  - by destruct Hc as [ -> | [ -> | [ -> | -> ] ] ].
  - destruct Hc as [ -> | [ -> | [ -> | -> ] ] ]; vm_compute; lia.
  - by destruct Hc as [ -> | [ -> | [ -> | -> ] ] ].
Qed.

(** A patient name that tries to leave the directory. *)
Lemma filename_has_no_separator_witness :
  occurs "/" (Test2Save.filename noon {["patient_info" := "../../etc/x"]})
  = false.
Proof. apply filename_has_no_separator. right. left. reflexivity. Defined.

(** X10. Two calls within the same calendar second, for patient data whose
    cleaned name and specimen are the same, write the same file: the rows
    of the first call are lost, the directory is as if the first call had
    not been made. *)
Theorem results_file_overwritten (can_open : string -> bool)
    (now1 row1 now2 row2 : datetime) (data1 data2 : gmap string string)
    (results1 results2 : list Test2.test_result)
    (directory : gmap string (list (list string))) :
  same_second now1 now2 ->
  Test2Save.clean (default "Unknown_Patient" (data1 !! "patient_info"))
  = Test2Save.clean (default "Unknown_Patient" (data2 !! "patient_info")) ->
  Test2Save.clean (default "Unknown_Specimen" (data1 !! "specimen_id"))
  = Test2Save.clean (default "Unknown_Specimen" (data2 !! "specimen_id")) ->
  let first :=
    (Test2Save.save_lab_results_to_file can_open now1 row1 data1 results1
       directory).1 in
  Test2Save.filename now1 data1 = Test2Save.filename now2 data2 /\
  (Test2Save.save_lab_results_to_file can_open now2 row2 data2 results2 first).1
  = (Test2Save.save_lab_results_to_file can_open now2 row2 data2 results2
       directory).1.
Proof.
  intros (Hy & Hmo & Hd & Hh & Hmi & Hs) Hname Hspec. cbv zeta.
  assert (Hfile : Test2Save.filename now1 data1 = Test2Save.filename now2 data2).
  { unfold Test2Save.filename, strftime_file. cbv zeta.
    by rewrite Hname, Hspec, Hy, Hmo, Hd, Hh, Hmi, Hs. }
  split; [done|]. unfold Test2Save.save_lab_results_to_file. cbv zeta.
  rewrite Hfile. destruct (can_open (Test2Save.filename now2 data2)); [|done].
  simpl. by rewrite insert_insert_eq.
Qed.

(** A patient written with a space and the same patient written with an
    underscore, one microsecond apart. *)
Lemma results_file_overwritten_witness :
  Test2Save.filename noon {["patient_info" := "DOE JOHN"]}
  = Test2Save.filename noon_later {["patient_info" := "DOE_JOHN"]}.
Proof.
  pose proof (results_file_overwritten (fun _ => true) noon noon noon_later
                noon_later {["patient_info" := "DOE JOHN"]}
                {["patient_info" := "DOE_JOHN"]} [hgb_result] [] ∅) as Hover.
  cbv zeta in Hover. apply Hover.
  - repeat split.
  - vm_compute. reflexivity.
  - vm_compute. reflexivity.
Defined.

(** * Properties of [src/python-hl7main.py] *)

Lemma strftime_file_inj t1 t2 :
  valid_datetime t1 -> valid_datetime t2 ->
  Hl7MainConn.message_filename t1 = Hl7MainConn.message_filename t2 ->
  same_second t1 t2.
Proof.
  intros (Hy1 & Hmo1 & Hd1 & Hh1 & Hmi1 & Hs1) (Hy2 & Hmo2 & Hd2 & Hh2 & Hmi2 & Hs2).
  unfold Hl7MainConn.message_filename, strftime_file, pad4. intros H.
  apply String.app_inj in H. rewrite !append_assoc in H.
  assert (year t1 / 100 < 100) by (apply Nat.Div0.div_lt_upper_bound; lia).
  assert (year t2 / 100 < 100) by (apply Nat.Div0.div_lt_upper_bound; lia).
  pose proof (Nat.mod_upper_bound (year t1) 100).
  pose proof (Nat.mod_upper_bound (year t2) 100).
  apply pad2_app_inj in H as [Hc H]; [|lia..].
  apply pad2_app_inj in H as [Hyy H]; [|lia..].
  apply pad2_app_inj in H as [Hmo H]; [|lia..].
  apply pad2_app_inj in H as [Hd H]; [|lia..].
  apply (String.app_inj "_") in H.
  apply pad2_app_inj in H as [Hh H]; [|lia..].
  apply pad2_app_inj in H as [Hmi H]; [|lia..].
  apply pad2_app_inj in H as [Hs _]; [|lia..].
  pose proof (Nat.div_mod_eq (year t1) 100).
  pose proof (Nat.div_mod_eq (year t2) 100).
  repeat split; try done. lia.
Qed.

(** X11. The file of a message is named after the second it is saved in
    and nothing else: of two messages saved within the same calendar
    second the first is lost, whatever the two messages are; saved in
    different seconds, both are kept. *)
Theorem message_file_per_second (can_open : string -> bool)
    (t1 t2 : datetime) (m1 m2 : string) (directory : gmap string string) :
  valid_datetime t1 -> valid_datetime t2 ->
  can_open (Hl7MainConn.message_filename t1) = true ->
  can_open (Hl7MainConn.message_filename t2) = true ->
  let both :=
    Hl7MainConn.save_message_to_file can_open t2 m2
      (Hl7MainConn.save_message_to_file can_open t1 m1 directory) in
  both !! Hl7MainConn.message_filename t2 = Some m2 /\
  (same_second t1 t2 ->
   both = Hl7MainConn.save_message_to_file can_open t2 m2 directory) /\
  (~ same_second t1 t2 ->
   both !! Hl7MainConn.message_filename t1 = Some m1).
Proof.
  intros Hv1 Hv2 Ho1 Ho2. cbv zeta.
  unfold Hl7MainConn.save_message_to_file. cbv zeta.
  fold (Hl7MainConn.message_filename t1) (Hl7MainConn.message_filename t2).
  rewrite Ho1, Ho2. split; [by rewrite lookup_insert_eq|]. split.
  - intros (Hy & Hmo & Hd & Hh & Hmi & Hs).
    assert (Hl7MainConn.message_filename t1 = Hl7MainConn.message_filename t2) as ->.
    { unfold Hl7MainConn.message_filename, strftime_file.
      by rewrite Hy, Hmo, Hd, Hh, Hmi, Hs. }
    by rewrite insert_insert_eq.
  - intros Hdiff. rewrite lookup_insert_ne, lookup_insert_eq; [done|].
    intros Heq. apply Hdiff. by apply strftime_file_inj.
Qed.

(** Two messages one microsecond apart. *)
Lemma message_file_per_second_witness :
  Hl7MainConn.save_message_to_file (fun _ => true) noon_later query_text
    (Hl7MainConn.save_message_to_file (fun _ => true) noon oru_text ∅)
  = Hl7MainConn.save_message_to_file (fun _ => true) noon_later query_text ∅.
Proof.
  pose proof (message_file_per_second (fun _ => true) noon noon_later
                oru_text query_text ∅) as Hsave.
  cbv zeta in Hsave. apply Hsave.
  - unfold valid_datetime; simpl; lia.
  - unfold valid_datetime; simpl; lia.
  - reflexivity.
  - reflexivity.
  - repeat split.
Defined.

Section Hl7MainHandlerFacts.

Variable decode : bytes -> option string.
Variable clock : nat -> datetime.

Local Abbreviation hl7_frame_loop := (Hl7MainConn.frame_loop decode clock).
Local Abbreviation hl7_answer := (Hl7MainConn.answer clock).

Lemma frames_length (Ms : list bytes) :
  length Ms <= length (concat (map mllp_frame Ms)).
Proof.
  induction Ms as [|M Ms IH]; [done|].
  change (concat (map mllp_frame (M :: Ms)))
    with (mllp_frame M ++ concat (map mllp_frame Ms)).
  rewrite length_app. simpl. lia.
Qed.

(** One round of the inner loop on a buffer that begins with a frame. *)
Lemma hl7_frame_loop_round fuel M rest acks :
  contains END_BLOCK M = false ->
  hl7_frame_loop (S fuel) (mllp_frame M ++ rest) acks =
  match decode M with
  | None => ([], Hl7MainConn.Raised)
  | Some message_text =>
      (Hl7MainConn.Process message_text
         :: Hl7MainConn.Send (encode (Hl7Main.create_ack_response (clock acks)))
         :: (hl7_frame_loop fuel rest (S acks)).1,
       (hl7_frame_loop fuel rest (S acks)).2)
  end.
Proof.
  intros HM. rewrite mllp_frame_raw, <- app_assoc.
  cbn [Hl7MainConn.frame_loop].
  rewrite contains_terminated, split_once_terminated by done.
  change (strip_start (x0b :: M)) with M.
  destruct (decode M); [|done]. by destruct (hl7_frame_loop fuel rest (S acks)).
Qed.

(** Frames that decode, then a buffer the loop stops at. *)
Lemma hl7_frame_loop_goods fuel goods texts rest acks :
  Forall (fun M => contains END_BLOCK M = false) goods ->
  Forall2 (fun M t => decode M = Some t) goods texts ->
  hl7_frame_loop (length goods + fuel) (concat (map mllp_frame goods) ++ rest) acks
  = (hl7_answer acks texts ++ (hl7_frame_loop fuel rest (acks + length goods)).1,
     (hl7_frame_loop fuel rest (acks + length goods)).2).
Proof.
  intros Hterm Hdec; revert acks Hterm.
  induction Hdec as [|M t goods texts HM _ IH]; intros acks Hterm.
  - simpl. rewrite Nat.add_0_r. by destruct (hl7_frame_loop fuel rest acks).
  - apply Forall_cons in Hterm as [HtM Hterm].
    change (concat (map mllp_frame (M :: goods)))
      with (mllp_frame M ++ concat (map mllp_frame goods)).
    rewrite <- app_assoc. cbn [length Nat.add].
    rewrite hl7_frame_loop_round, HM by done.
    rewrite IH by done.
    cbn [fst snd Hl7MainConn.answer app].
    by replace (acks + S (length goods)) with (S acks + length goods) by lia.
Qed.

End Hl7MainHandlerFacts.

(** X12. In [src/python-hl7main.py] a frame that does not decode ends the
    connection: the frames before it, in the same read, have been
    processed and answered, each with the ACK built at its own reading of
    the clock; the frame itself gets no ACK; the handler logs one error,
    closes the socket, and neither the bytes behind the frame nor the reads
    that would follow are looked at. *)
Theorem undecodable_frame_ends_connection (decode : bytes -> option string)
    (clock : nat -> datetime) (goods : list bytes) (texts : list string)
    (bad tail : bytes) (unread : list Test2.recv_result) :
  Forall (fun M => contains END_BLOCK M = false) goods ->
  Forall2 (fun M t => decode M = Some t) goods texts ->
  contains END_BLOCK bad = false ->
  decode bad = None ->
  let data := concat (map mllp_frame goods) ++ mllp_frame bad ++ tail in
  Hl7MainConn.handle_client decode clock (Test2.Data data :: unread)
  = Hl7MainConn.answer clock 0 texts
    ++ [Hl7MainConn.LogError; Hl7MainConn.CloseSocket;
        Hl7MainConn.LogConnectionClosed].
Proof.
  intros Hterm Hdec Hbad Hnone data.
  assert (Hlen : length goods + 3 <= length data).
  { unfold data. rewrite !length_app. pose proof (frames_length goods).
    assert (length (mllp_frame bad) = 3 + length bad)
      by (unfold mllp_frame; rewrite !length_app; simpl; lia).
    lia. }
  assert (Hloop : Hl7MainConn.frame_loop decode clock (S (length data)) data 0
                  = (Hl7MainConn.answer clock 0 texts, Hl7MainConn.Raised)).
  { replace (S (length data))
      with (length goods + S (length data - length goods)) by lia.
    unfold data. rewrite (hl7_frame_loop_goods _ _ _ _ texts) by done.
    rewrite hl7_frame_loop_round, Hnone by done. simpl. by rewrite app_nil_r. }
  unfold Hl7MainConn.handle_client. cbn [Hl7MainConn.recv_loop].
  destruct data as [|d data'] eqn:Hd; [simpl in Hlen; lia|].
  cbn [app]. rewrite Hloop. done.
Qed.

(** The frame [A], then a frame that holds the byte 0xFF, then the frame
    [B], which is never answered. *)
Lemma undecodable_frame_ends_connection_witness :
  Hl7MainConn.sent_of
    (Hl7MainConn.handle_client decode_ascii_strict (fun _ => noon)
       [Test2.Data (mllp_frame [x41] ++ mllp_frame [xff] ++ mllp_frame [x42])])
  = [encode (Hl7Main.create_ack_response noon)].
Proof.
  pose proof (undecodable_frame_ends_connection decode_ascii_strict
                (fun _ => noon) [[x41]] ["A"] [xff] (mllp_frame [x42]) []) as Hrun.
  cbv zeta in Hrun.
  change (concat (map mllp_frame [[x41]])) with (mllp_frame [x41] ++ []) in Hrun.
  rewrite app_nil_r in Hrun. rewrite Hrun.
  - reflexivity.
  - repeat constructor.
  - repeat constructor.
  - reflexivity.
  - reflexivity.
Defined.

Lemma hl7_frame_loop_none decode clock fuel buffer acks :
  contains END_BLOCK buffer = false ->
  Hl7MainConn.frame_loop decode clock fuel buffer acks
  = ([], Hl7MainConn.Left buffer acks).
Proof.
  intros Hc. destruct fuel; cbn [Hl7MainConn.frame_loop]; by rewrite ?Hc.
Qed.





(** * The ACK on the wire *)

Lemma encode_app a b : encode (a +:+ b) = encode a ++ encode b.
Proof.
  induction a as [|c a IH]; [done|].
  cbn [append encode]. by rewrite IH, app_assoc.
Qed.

(** A byte string without the byte 0x1C holds no terminator. *)
Lemma contains_without_FS data :
  forallb (fun b => negb (Byte.eqb x1c b)) data = true ->
  contains END_BLOCK data = false.
Proof.
  induction data as [|b data IH]; [done|].
  cbn [forallb]. intros [Hb Hd]%andb_true_iff.
  apply contains_END_cons. split; [|by apply IH].
  simpl. by destruct (Byte.eqb x1c b).
Qed.

Lemma encode_char_digit n : encode_char (digit n) = [byte_of_ascii (digit n)].
Proof.
  unfold encode_char. rewrite digit_code.
  pose proof (Nat.mod_upper_bound n 10).
  by assert ((48 + n mod 10 <? 128)%nat = true) as -> by (apply Nat.ltb_lt; lia).
Qed.

Lemma byte_digit_not_FS n : Byte.eqb x1c (byte_of_ascii (digit n)) = false.
Proof.
  destruct (Byte.eqb x1c (byte_of_ascii (digit n))) eqn:He; [|done].
  apply byte_dec_bl in He. apply (f_equal ascii_of_byte) in He.
  rewrite ascii_of_byte_of_ascii in He.
  apply (f_equal nat_of_ascii) in He. rewrite digit_code in He.
  vm_compute in He. lia.
Qed.

Lemma encode_pad2_no_FS n :
  forallb (fun b => negb (Byte.eqb x1c b)) (encode (pad2 n)) = true.
Proof.
  unfold pad2. cbn [encode]. rewrite !encode_char_digit.
  cbn [app forallb]. by rewrite !byte_digit_not_FS.
Qed.

Lemma encode_strftime_no_FS now :
  forallb (fun b => negb (Byte.eqb x1c b)) (encode (strftime now)) = true.
Proof.
  unfold strftime, pad4.
  by rewrite !encode_app, !forallb_app, !encode_pad2_no_FS.
Qed.

(** X14. Every ACK either builder returns is one well-formed frame on the
    wire: a start byte, a payload without terminator, the terminator; the
    framing loop of the server itself takes exactly that payload off it
    and leaves nothing.  The handler of [src/test2.py] answers an ACK it
    receives with an ACK. *)
Theorem ack_is_one_frame (decode : bytes -> string) (now now' : datetime)
    (m : option string) :
  (exists payload,
     encode (Hl7Main.create_ack_response now) = mllp_frame payload /\
     contains END_BLOCK payload = false /\
     feed [] (encode (Hl7Main.create_ack_response now)) = ([payload], [])) /\
  (exists payload,
     encode (Test2.create_ack_response now m) = mllp_frame payload /\
     contains END_BLOCK payload = false /\
     feed [] (encode (Test2.create_ack_response now m)) = ([payload], [])) /\
  Test2.sent_of
    (Test2.handle_client decode now'
       [Test2.Data (encode (Test2.create_ack_response now m))]).1
  = [encode fixed_ack].
Proof.
  assert (Hone : forall payload, contains END_BLOCK payload = false ->
            feed [] (mllp_frame payload) = ([payload], [])).
  { intros payload Hp. rewrite mllp_frame_raw.
    by rewrite (feed_complete [] _ (x0b :: payload)). }
  split; [|split].
  - pose proof (encode_strftime_no_FS now) as Hts.
    unfold Hl7Main.create_ack_response. cbv zeta.
    generalize dependent (strftime now). intros ts Hts.
    eexists. split; [|split].
    + rewrite (encode_app (String VT "")), encode_app.
      change (encode (String VT "")) with [x0b].
      change (encode (String FS (String CR ""))) with END_BLOCK.
      reflexivity.
    + apply contains_without_FS.
      rewrite !encode_app, !forallb_app, !Hts. reflexivity.
    + rewrite (encode_app (String VT "")), encode_app.
      change (encode (String VT "")) with [x0b].
      change (encode (String FS (String CR ""))) with END_BLOCK.
      apply Hone. apply contains_without_FS.
      rewrite !encode_app, !forallb_app, !Hts. reflexivity.
  - eexists (encode ("MSH|^~\&|103868||BM850HL7MW||20250906121328||ACK|BM_3|P|2.7"
                     +:+ String CR ("MSA|AA|BM_3" +:+ String CR ""))).
    split; [vm_compute; reflexivity|]. split; vm_compute; reflexivity.
  - assert (Hfeed : feed [] (encode (Test2.create_ack_response now m))
            = ([encode ("MSH|^~\&|103868||BM850HL7MW||20250906121328||ACK|BM_3|P|2.7"
                        +:+ String CR ("MSA|AA|BM_3" +:+ String CR ""))], []))
      by (vm_compute; reflexivity).
    rewrite handle_client_events, recv_loop_data, Hfeed by done.
    cbn [fst snd flat_map Test2.recv_loop]. rewrite on_frame_events.
    reflexivity.
Qed.

(** * Line ends *)

Lemma strip_line_feed s : strip (String "010"%char s) = strip s.
Proof. done. Qed.

(** Cutting at the carriage returns a text to which line feeds have been
    added: the first piece is the same, the others begin with the line
    feed. *)
Lemma split_with_crlf text :
  exists piece pieces,
    split CR text = piece :: pieces /\
    split CR (with_crlf text) = piece :: map (String "010"%char) pieces.
Proof.
  induction text as [|c text (piece & pieces & Hs & Hc)]; [by exists "", []|].
  cbn [with_crlf split]. destruct (Ascii.eqb c CR) eqn:Ec.
  - exists "", (piece :: pieces). cbn [split]. rewrite Ascii.eqb_refl.
    change (Ascii.eqb "010"%char CR) with false. cbv iota.
    by rewrite Hs, Hc.
  - exists (String c piece), pieces. cbn [split]. by rewrite Ec, Hs, Hc.
Qed.

(** X15. A message whose lines end in carriage return and line feed is
    read exactly as the same message with carriage returns only: the
    segments, and so the patient data and the results, are the same. *)
Theorem crlf_read_as_cr (complete_message : string) :
  Test2.segments_of (with_crlf complete_message)
  = Test2.segments_of complete_message /\
  Test2.process_complete_hl7_message (with_crlf complete_message)
  = Test2.process_complete_hl7_message complete_message.
Proof.
  assert (Hseg : Test2.segments_of (with_crlf complete_message)
                 = Test2.segments_of complete_message).
  { unfold Test2.segments_of.
    destruct (split_with_crlf complete_message) as (piece & pieces & Hs & Hc).
    rewrite Hs, Hc. clear Hs Hc.
    assert (Hrest : omap (fun seg => if truthy (strip seg) then Some (strip seg)
                                     else None)
                      (map (String "010"%char) pieces)
                    = omap (fun seg => if truthy (strip seg) then Some (strip seg)
                                       else None) pieces).
    { induction pieces as [|p pieces IH]; [done|].
      cbn [map omap list_omap]. by rewrite strip_line_feed, IH. }
    cbn [omap list_omap]. by rewrite Hrest. }
  split; [done|]. unfold Test2.process_complete_hl7_message. by rewrite Hseg.
Qed.

(** X16. A message whose lines are separated by something else than a
    carriage return, a line feed alone for instance, is one segment: only
    the type of its first line is looked at, and when that is [MSH] no
    result is read, whatever [OBX] lines follow. *)
Theorem no_carriage_return_one_segment (complete_message : string) :
  occurs CR complete_message = false ->
  Test2.segments_of complete_message
  = (if truthy (strip complete_message) then [strip complete_message] else []) /\
  (prefix 3 (strip complete_message) = "MSH" ->
   (Test2.process_complete_hl7_message complete_message).2 = []).
Proof.
  intros Hcr.
  assert (Hseg : Test2.segments_of complete_message
                 = if truthy (strip complete_message)
                   then [strip complete_message] else []).
  { unfold Test2.segments_of. rewrite split_no_sep by done.
    cbn [omap list_omap]. by destruct (truthy (strip complete_message)). }
  split; [done|]. intros Hmsh.
  unfold Test2.process_complete_hl7_message.
  rewrite fold_process_results, Hseg. cbn [snd app].
  destruct (truthy (strip complete_message)); [|done].
  cbn [omap list_omap]. unfold obx_result. by rewrite Hmsh.
Qed.

(** The message of the end-to-end scenario with line feeds for carriage
    returns: the result of its [OBX] line is not read. *)
Lemma no_carriage_return_one_segment_witness :
  (Test2.process_complete_hl7_message
     (replace_char CR "010" oru_message)).2 = [].
Proof.
  apply (no_carriage_return_one_segment (replace_char CR "010" oru_message));
    reflexivity.
Defined.

(** * The two handlers on text that is malformed or does not decode *)

(** One frame that decodes, alone in its read, in [src/python-hl7main.py]. *)
Lemma hl7_one_frame (strict : bytes -> option string) (clock : nat -> datetime)
    (M : bytes) (text : string) :
  contains END_BLOCK M = false -> strict M = Some text ->
  Hl7MainConn.handle_client strict clock [Test2.Data (mllp_frame M)]
  = [Hl7MainConn.Process text;
     Hl7MainConn.Send (encode (Hl7Main.create_ack_response (clock 0)));
     Hl7MainConn.CloseSocket; Hl7MainConn.LogConnectionClosed].
Proof.
  intros HM Hdec. unfold Hl7MainConn.handle_client.
  change (mllp_frame M) with (x0b :: M ++ END_BLOCK).
  cbn [Hl7MainConn.recv_loop app].
  change (x0b :: M ++ END_BLOCK) with (mllp_frame M).
  rewrite <- (app_nil_r (mllp_frame M)) at 2.
  rewrite hl7_frame_loop_round, Hdec by done.
  rewrite hl7_frame_loop_none by done. done.
Qed.

(** C3, as the code has it.  In [src/test2.py] reading a text never fails
    and nothing is rejected: whatever the decoded text of a frame, also
    one without segment or whose first segment is not [MSH], the handler
    calls the reader once, saves what it returns and sends the ACK, and
    the results saved are those of the [OBX] segments of more than five
    fields, in their order.  In [src/python-hl7main.py] the text is parsed
    by the [hl7] library: when [hl7.parse] raises, or the lookup of the
    message type in [MSH] does, the frame is rejected before it is routed
    and before it is saved, and only the error and the raw text are
    logged; when neither raises the message is routed by its type and
    saved.  The handler sends the ACK for the frame in both cases. *)
Theorem malformed_text_in_both_servers
    (decode : bytes -> string) (now : datetime) (message : bytes)
    (hl7_message : Type) (parse : string -> option hl7_message)
    (message_type_of : hl7_message -> option string)
    (strict : bytes -> option string) (clock : nat -> datetime)
    (text : string) :
  let text2 := decode message in
  Test2.saved_of (Test2.on_frame decode now message)
    = [Test2.process_complete_hl7_message text2] /\
  Test2.sent_of (Test2.on_frame decode now message)
    = [encode (Test2.create_ack_response now (Some text2))] /\
  (Test2.process_complete_hl7_message text2).2
    = omap obx_result (Test2.segments_of text2) /\
  (parse text = None ->
   Hl7MainProcess.process_hl7_message hl7_message parse message_type_of text
   = [Hl7MainProcess.LogProcessError text]) /\
  (forall parsed,
     parse text = Some parsed -> message_type_of parsed = None ->
     Hl7MainProcess.process_hl7_message hl7_message parse message_type_of text
     = [Hl7MainProcess.LogReceived; Hl7MainProcess.LogProcessError text]) /\
  (forall parsed message_type,
     parse text = Some parsed -> message_type_of parsed = Some message_type ->
     Hl7MainProcess.process_hl7_message hl7_message parse message_type_of text
     = [Hl7MainProcess.LogReceived;
        Hl7MainProcess.LogMessageType message_type;
        if String.eqb message_type "ORU" then Hl7MainProcess.HandleORU
        else if String.eqb message_type "QRY" then Hl7MainProcess.HandleQRY
        else Hl7MainProcess.LogUnhandled message_type;
        Hl7MainProcess.SaveMessage text]) /\
  (forall M,
     contains END_BLOCK M = false -> strict M = Some text ->
     Hl7MainConn.handle_client strict clock [Test2.Data (mllp_frame M)]
     = [Hl7MainConn.Process text;
        Hl7MainConn.Send (encode (Hl7Main.create_ack_response (clock 0)));
        Hl7MainConn.CloseSocket; Hl7MainConn.LogConnectionClosed]).
Proof.
  cbv zeta.
  destruct (test2_reader_accepts_all decode now message) as (Hsaved & Hsent & Hobx).
  split; [done|]. split; [done|]. split; [done|].
  unfold Hl7MainProcess.process_hl7_message. split; [|split; [|split]].
  - by intros ->.
  - by intros parsed -> ->.
  - by intros parsed message_type -> ->.
  - intros M HM Hdec. by apply hl7_one_frame.
Qed.

(** A lone [OBX] line on the parser that raises on malformed text: it is
    neither routed nor saved, and its frame is answered. *)
Lemma malformed_text_in_both_servers_witness :
  Hl7MainProcess.process_hl7_message (list string) parse_segments
    (fun _ => Some "ORU") obx_text
  = [Hl7MainProcess.LogProcessError obx_text] /\
  Hl7MainConn.handle_client decode_ascii_strict (fun _ => noon)
    [Test2.Data (mllp_frame (encode obx_text))]
  = [Hl7MainConn.Process obx_text;
     Hl7MainConn.Send (encode (Hl7Main.create_ack_response noon));
     Hl7MainConn.CloseSocket; Hl7MainConn.LogConnectionClosed].
Proof.
  pose proof (malformed_text_in_both_servers decode_ascii noon []
                (list string) parse_segments (fun _ => Some "ORU")
                decode_ascii_strict (fun _ => noon) obx_text) as Hboth.
  cbv zeta in Hboth.
  destruct Hboth as (_ & _ & _ & Hraise & _ & _ & Hack).
  split.
  - apply Hraise. reflexivity.
  - apply Hack; reflexivity.
Defined.

(** C5: two frames in one read, the first with the Latin-1 letter 0xC9
    behind [JOS], the second [A].  The pass of the framing loop gives both
    payloads, in order, and the handler of [src/test2.py], which decodes
    with [errors='ignore'], processes and answers each of them; the
    handler of [src/python-hl7main.py], which decodes without it, raises on
    the first payload: it processes neither frame, sends no ACK, logs the
    error and closes the connection. *)
Theorem strict_decode_loses_frames :
  let data := [x0b; x4a; x4f; x53; xc9; x1c; x0d; x0b; x41; x1c; x0d] in
  feed [] data = ([[x4a; x4f; x53; xc9]; [x41]], []) /\
  Test2.handle_client decode_ascii noon [Test2.Data data]
  = ([Test2.LogReceived 11;
      Test2.LogCompleteMessage [x4a; x4f; x53; xc9];
      Test2.LogRawMessage "JOS";
      Test2.SaveLabResults ∅ [];
      Test2.Send (encode fixed_ack);
      Test2.LogCompleteMessage [x41];
      Test2.LogRawMessage "A";
      Test2.SaveLabResults ∅ [];
      Test2.Send (encode fixed_ack);
      Test2.CloseSocket; Test2.LogConnectionClosed], []) /\
  decode_ascii_strict [x4a; x4f; x53; xc9] = None /\
  Hl7MainConn.handle_client decode_ascii_strict (fun _ => noon)
    [Test2.Data data]
  = [Hl7MainConn.LogError; Hl7MainConn.CloseSocket;
     Hl7MainConn.LogConnectionClosed].
Proof. cbv zeta. repeat split; vm_compute; reflexivity. Qed.
